(** * Trader: the mode-switching tick relay

    A shallow embedding of [src/deltaFeed.js] (the message handler of the
    Delta ticker socket) and of [src/index.ts] (the module state [flag],
    [manualDirection], [currentPrice], [manualTimer], [deltaWs], the helpers
    that start and stop the two producers, the broadcast to the subscribers
    of [/ticks] and the HTTP handlers of [/mode] and [/manual-direction]).

    JavaScript numbers are IEEE-754 doubles: they are modelled by Rocq's
    primitive binary64 floats, so [+], [-], [===] and truthiness of a number
    are the machine's.  The event loop is single threaded: every callback is
    a function from world to world, and a run of the server is a list of
    events folded over the initial world. *)

From Stdlib Require Import Floats.PrimFloat.
From stdpp Require Import base option list strings gmap.

Local Open Scope string_scope.
Local Open Scope list_scope.
#[local] Set Warnings "-register-all".

(** ** JavaScript values *)

Module JS.

(** What [JSON.parse] returns. An object is the list of its own properties. *)
Inductive json :=
| JNull
| JBool (b : bool)
| JNumber (f : float)
| JString (s : string)
| JArray (elts : list json)
| JObject (props : list (string * json)).

(** A variable or the result of a property read: [None] is [undefined]. *)
Abbreviation jsval := (option json).
Abbreviation undefined := (@None json).

(** An evaluation either completes with a value or throws. *)
Inductive completion (A : Type) :=
| Normal (a : A)
| Throw (err : string).
Arguments Normal {A} a.
Arguments Throw {A} err.

#[global] Instance completion_ret : MRet completion := @Normal.
#[global] Instance completion_bind : MBind completion :=
  λ A B f m, match m with Normal a => f a | Throw e => Throw e end.

Definition prop_lookup (props : list (string * json)) (key : string) : jsval :=
  snd <$> find (λ p, String.eqb (fst p) key) props.

(** [v.key] for the keys the feed handler reads ([symbol], [mark_price],
    [close], [spot_price], [timestamp]): none of them is a property of the
    prototypes of numbers, strings, booleans or arrays, so only an object can
    carry one, and reading a property of [null] throws a TypeError. *)
Definition member (v : json) (key : string) : completion jsval :=
  match v with
  | JNull => Throw "TypeError: Cannot read properties of null"
  | JObject props => Normal (prop_lookup props key)
  | _ => Normal undefined
  end.

(** A number is falsy when it is [0], [-0] or [NaN]. *)
Definition truthy_number (f : float) : bool :=
  negb (is_zero f || is_nan f).

(** [ToBoolean]: what [!v] and [v ? a : b] test. *)
Definition truthy (v : jsval) : bool :=
  match v with
  | None => false
  | Some JNull => false
  | Some (JBool b) => b
  | Some (JNumber f) => truthy_number f
  | Some (JString s) => negb (String.eqb s EmptyString)
  | Some (JArray _) => true
  | Some (JObject _) => true
  end.

(** [a === b] on numbers is the IEEE comparison: [0 === -0], and [NaN] is
    equal to nothing. *)
Definition strict_eq_number (v : jsval) (n : float) : bool :=
  match v with
  | Some (JNumber f) => (f =? n)%float
  | _ => false
  end.

Definition strict_eq_string (v : jsval) (s : string) : bool :=
  match v with
  | Some (JString s') => String.eqb s' s
  | _ => false
  end.

Section ToNumber.
(** The two conversions of the language that read text: [StringToNumber]
    (the numeric value of a string literal, [NaN] when it is none) and the
    conversion of an array or an object through [ToPrimitive], which may
    throw. They are the run time's, not this repository's. *)
Variable StringToNumber : string → float.
Variable ObjectToNumber : json → completion float.

(** [Number(v)] *)
Definition Number (v : jsval) : completion float :=
  match v with
  | None => Normal nan
  | Some JNull => Normal 0%float
  | Some (JBool true) => Normal 1%float
  | Some (JBool false) => Normal 0%float
  | Some (JNumber f) => Normal f
  | Some (JString s) => Normal (StringToNumber s)
  | Some (JArray elts) => ObjectToNumber (JArray elts)
  | Some (JObject props) => ObjectToNumber (JObject props)
  end.
End ToNumber.

End JS.

(** ** src/deltaFeed.js *)

Module DeltaFeed.
Import JS.

(** The object handed to [onTick]. *)
Record Tick := {
  symbol : jsval;
  price : float;
  time : jsval;
  source : string;
}.

(** What one run of the [message] callback does. *)
Inductive Outcome :=
| Emitted (t : Tick)          (* onTick(t) was called *)
| Ignored                     (* an early [return] *)
| ErrorLogged (err : string). (* the [catch] branch *)

Section Handler.
Variable StringToNumber : string → float.
Variable ObjectToNumber : json → completion float.

#[local] Abbreviation Number := (JS.Number StringToNumber ObjectToNumber).

(** [Number(msg.mark_price) || Number(msg.close) || Number(msg.spot_price)] *)
Definition price_of (mark_price close spot_price : jsval) : completion float :=
  a ← Number mark_price;
  if truthy_number a then mret a else
  b ← Number close;
  if truthy_number b then mret b else
  Number spot_price.

(** The body of the [try] block; [now] is [Date.now()] and [parsed] the
    completion of [JSON.parse(data.toString())]. [None] is an early
    [return]. *)
Definition message_body (now : float) (parsed : completion json)
  : completion (option Tick) :=
  msg ← parsed;
  sym ← member msg "symbol";
  if negb (truthy sym) then mret None else
  mark_price ← member msg "mark_price";
  close ← member msg "close";
  if negb (truthy mark_price) && negb (truthy close) then mret None else
  spot_price ← member msg "spot_price";
  p ← price_of mark_price close spot_price;
  if negb (truthy_number p) then mret None else
  timestamp ← member msg "timestamp";
  mret (Some {| symbol := sym;
                price := p;
                time := if truthy timestamp then timestamp
                        else Some (JNumber now);
                source := "delta" |}).

(** [ws.on("message", ...)]: the [try]/[catch] around the body. *)
Definition on_message (now : float) (parsed : completion json) : Outcome :=
  match message_body now parsed with
  | Normal (Some t) => Emitted t
  | Normal None => Ignored
  | Throw err => ErrorLogged err
  end.
End Handler.

End DeltaFeed.

(** ** src/index.ts *)

Module Index.
Import JS.
Export DeltaFeed.

(** [type ModeFlag = 0 | 1]: 1 = API (Delta), 0 = MANUAL. *)
Inductive ModeFlag := Flag0 | Flag1.

(** [type ManualDirection = "up" | "down" | "none"] *)
Inductive ManualDirection := DirUp | DirDown | DirNone.

(** What [setInterval] and [startDeltaFeed] return: a fresh object each
    time, here its serial number. Every handle is truthy. *)
Abbreviation Handle := nat.

(** A socket of [wss.clients] with its [readyState] (1 is OPEN). *)
Record Client := {
  cid : nat;
  readyState : nat;
}.

(** What the module does to the outside: the timers and upstream sockets it
    creates and destroys, and the frames it sends to its subscribers. [Send]
    carries the object given to [JSON.stringify]. *)
Inductive Effect :=
| SetInterval (h : Handle)
| ClearInterval (h : Handle)
| StartDeltaFeed (h : Handle) (sym : string)
| CloseSocket (h : Handle)
| Send (client : nat) (data : json).

(** The environment the module reads once: [SYMBOL], [INITIAL_MODE] and
    whether [process.env.NODE_ENV] is ["test"]. *)
Record Config := {
  SYMBOL : string;
  INITIAL_MODE : string;
  NODE_ENV_test : bool;
}.

(** The module-level variables, the subscribers, and the history of effects
    (newest first). *)
Record World := {
  flag : ModeFlag;
  manualDirection : ManualDirection;
  currentPrice : option float;
  manualTimer : option Handle;
  deltaWs : option Handle;
  clients : list Client;
  nextHandle : Handle;
  effects : list Effect;
}.

Definition set_flag (f : ModeFlag) (w : World) : World :=
  {| flag := f; manualDirection := manualDirection w;
     currentPrice := currentPrice w; manualTimer := manualTimer w;
     deltaWs := deltaWs w; clients := clients w;
     nextHandle := nextHandle w; effects := effects w |}.

Definition set_manualDirection (d : ManualDirection) (w : World) : World :=
  {| flag := flag w; manualDirection := d;
     currentPrice := currentPrice w; manualTimer := manualTimer w;
     deltaWs := deltaWs w; clients := clients w;
     nextHandle := nextHandle w; effects := effects w |}.

Definition set_currentPrice (p : option float) (w : World) : World :=
  {| flag := flag w; manualDirection := manualDirection w;
     currentPrice := p; manualTimer := manualTimer w;
     deltaWs := deltaWs w; clients := clients w;
     nextHandle := nextHandle w; effects := effects w |}.

Definition set_manualTimer (t : option Handle) (w : World) : World :=
  {| flag := flag w; manualDirection := manualDirection w;
     currentPrice := currentPrice w; manualTimer := t;
     deltaWs := deltaWs w; clients := clients w;
     nextHandle := nextHandle w; effects := effects w |}.

Definition set_deltaWs (s : option Handle) (w : World) : World :=
  {| flag := flag w; manualDirection := manualDirection w;
     currentPrice := currentPrice w; manualTimer := manualTimer w;
     deltaWs := s; clients := clients w;
     nextHandle := nextHandle w; effects := effects w |}.

Definition set_clients (cs : list Client) (w : World) : World :=
  {| flag := flag w; manualDirection := manualDirection w;
     currentPrice := currentPrice w; manualTimer := manualTimer w;
     deltaWs := deltaWs w; clients := cs;
     nextHandle := nextHandle w; effects := effects w |}.

(** Performing an effect records it. *)
Definition emit (e : Effect) (w : World) : World :=
  {| flag := flag w; manualDirection := manualDirection w;
     currentPrice := currentPrice w; manualTimer := manualTimer w;
     deltaWs := deltaWs w; clients := clients w;
     nextHandle := nextHandle w; effects := e :: effects w |}.

(** Allocating the next handle. *)
Definition fresh (w : World) : Handle * World :=
  (nextHandle w,
   {| flag := flag w; manualDirection := manualDirection w;
      currentPrice := currentPrice w; manualTimer := manualTimer w;
      deltaWs := deltaWs w; clients := clients w;
      nextHandle := S (nextHandle w); effects := effects w |}).

(** [flag === 1 ? "API" : "MANUAL"] *)
Definition mode_name (f : ModeFlag) : string :=
  match f with Flag1 => "API" | Flag0 => "MANUAL" end.

Definition direction_name (d : ManualDirection) : string :=
  match d with DirUp => "up" | DirDown => "down" | DirNone => "none" end.

Definition flag_number (f : ModeFlag) : float :=
  match f with Flag1 => 1%float | Flag0 => 0%float end.

(** A property whose value is [undefined] is left out by [JSON.stringify]. *)
Definition opt_prop (key : string) (v : jsval) : list (string * json) :=
  match v with Some j => [(key, j)] | None => [] end.

(** The timers and the upstream sockets that are alive after a history. *)
Fixpoint timers (tr : list Effect) : gset Handle :=
  match tr with
  | [] => ∅
  | SetInterval h :: tr => {[h]} ∪ timers tr
  | ClearInterval h :: tr => timers tr ∖ {[h]}
  | _ :: tr => timers tr
  end.

Fixpoint sockets (tr : list Effect) : gset Handle :=
  match tr with
  | [] => ∅
  | StartDeltaFeed h _ :: tr => {[h]} ∪ sockets tr
  | CloseSocket h :: tr => sockets tr ∖ {[h]}
  | _ :: tr => sockets tr
  end.

(** The upstream sockets ever opened: a frame already on its way is still
    delivered to [handleDeltaTick] after [close()]. *)
Fixpoint opened (tr : list Effect) : gset Handle :=
  match tr with
  | [] => ∅
  | StartDeltaFeed h _ :: tr => {[h]} ∪ opened tr
  | _ :: tr => opened tr
  end.

Section Server.
Variable cfg : Config.

(** The state when the module has been loaded. *)
Definition init : World :=
  {| flag := if String.eqb (INITIAL_MODE cfg) "manual" then Flag0 else Flag1;
     manualDirection := DirNone;
     currentPrice := None;
     manualTimer := None;
     deltaWs := None;
     clients := [];
     nextHandle := 0;
     effects := [] |}.

Definition stopManualLoop (w : World) : World :=
  match manualTimer w with
  | Some h => set_manualTimer None (emit (ClearInterval h) w)
  | None => w
  end.

Definition startDeltaMode (w : World) : World :=
  let w := stopManualLoop w in
  match deltaWs w with
  | None =>
      if NODE_ENV_test cfg then w
      else let '(h, w) := fresh w in
           set_deltaWs (Some h) (emit (StartDeltaFeed h (SYMBOL cfg)) w)
  | Some _ => w
  end.

Definition stopDeltaMode (w : World) : World :=
  match deltaWs w with
  | Some h => set_deltaWs None (emit (CloseSocket h) w)
  | None => w
  end.

Definition startManualLoop (w : World) : World :=
  let w := stopDeltaMode w in
  let w := match currentPrice w with
           | None => set_currentPrice (Some 100%float) w
           | Some _ => w
           end in
  let w := match manualTimer w with
           | Some h => emit (ClearInterval h) w
           | None => w
           end in
  let '(h, w) := fresh w in
  set_manualTimer (Some h) (emit (SetInterval h) w).

(** [currentPrice += step]: [null] counts as [0] in an addition. *)
Definition price_number (p : option float) : float :=
  match p with Some f => f | None => 0%float end.

(** The callback given to [setInterval]. *)
Definition manualTick (w : World) : World :=
  let step := 10%float in
  match manualDirection w with
  | DirUp => set_currentPrice (Some (price_number (currentPrice w) + step)%float) w
  | DirDown => set_currentPrice (Some (price_number (currentPrice w) - step)%float) w
  | DirNone => w
  end.

(** The object [broadcastTick] serializes. *)
Definition tick_event (tick : Tick) (f : ModeFlag) : json :=
  JObject ([("type", JString "tick")]
           ++ opt_prop "symbol" (symbol tick)
           ++ [("price", JNumber (price tick))]
           ++ opt_prop "time" (time tick)
           ++ [("source", JString (source tick));
               ("mode", JString (mode_name f))]).

(** [wss.clients.forEach(client => { if (client.readyState === 1) client.send(data) })] *)
Fixpoint send_each (data : json) (cs : list Client) (w : World) : World :=
  match cs with
  | [] => w
  | c :: cs =>
      send_each data cs
        (if Nat.eqb (readyState c) 1 then emit (Send (cid c) data) w else w)
  end.

Definition broadcastTick (tick : Tick) (w : World) : World :=
  send_each (tick_event tick (flag w)) (clients w) w.

Definition handleDeltaTick (tick : Tick) (w : World) : World :=
  let w := match flag w with
           | Flag1 => set_currentPrice (Some (price tick)) w
           | Flag0 => w
           end in
  broadcastTick tick w.

(** [wss.on("connection", ...)]: the socket is in [wss.clients] and gets
    the greeting. *)
Definition onConnection (c : nat) (w : World) : World :=
  let w := set_clients (clients w ++ [{| cid := c; readyState := 1 |}]) w in
  emit (Send c (JObject [("type", JString "info");
                         ("message", JString "Connected to tick stream");
                         ("mode", JString (mode_name (flag w)))])) w.

Record Response := {
  status : nat;
  body : json;
}.

(** [newFlag !== 0 && newFlag !== 1] fails only for the numbers 0 (or -0)
    and 1. *)
Definition accepted_flag (newFlag : jsval) : option ModeFlag :=
  if strict_eq_number newFlag 0%float then Some Flag0
  else if strict_eq_number newFlag 1%float then Some Flag1
  else None.

(** [app.post("/mode", ...)]; [newFlag] is [req.body.flag]. *)
Definition postMode (newFlag : jsval) (w : World) : Response * World :=
  match accepted_flag newFlag with
  | None =>
      ({| status := 400;
          body := JObject [("error", JString "flag must be 0 or 1")] |}, w)
  | Some f =>
      let w := set_flag f w in
      let w := match flag w with
               | Flag1 =>
                   let w := set_manualDirection DirNone w in
                   let w := stopManualLoop w in
                   startDeltaMode w
               | Flag0 =>
                   let w := set_manualDirection DirNone w in
                   startManualLoop w
               end in
      ({| status := 200;
          body := JObject [("flag", JNumber (flag_number (flag w)));
                           ("manualDirection",
                            JString (direction_name (manualDirection w)))] |},
       w)
  end.

(** [["up", "down", "none"].includes(direction)] *)
Definition accepted_direction (direction : jsval) : option ManualDirection :=
  if strict_eq_string direction "up" then Some DirUp
  else if strict_eq_string direction "down" then Some DirDown
  else if strict_eq_string direction "none" then Some DirNone
  else None.

(** [app.post("/manual-direction", ...)]; [direction] is
    [req.body.direction]. *)
Definition postManualDirection (direction : jsval) (w : World)
  : Response * World :=
  match accepted_direction direction with
  | None =>
      ({| status := 400;
          body := JObject [("error",
                   JString "direction must be 'up', 'down' or 'none'")] |}, w)
  | Some d =>
      let w := set_manualDirection d w in
      ({| status := 200;
          body := JObject [("manualDirection",
                            JString (direction_name (manualDirection w)))] |},
       w)
  end.

(** The callback of [server.listen] in [startServer]. *)
Definition onListening (w : World) : World :=
  if NODE_ENV_test cfg then w
  else match flag w with
       | Flag1 => startDeltaMode w
       | Flag0 => startManualLoop w
       end.

(** What the event loop can run next. *)
Inductive Event :=
| Listening
| PostMode (newFlag : jsval)
| PostManualDirection (direction : jsval)
| TimerFires (h : Handle)
| DeltaTick (h : Handle) (tick : Tick)
| Connection (c : nat)
| ReadyState (c : nat) (rs : nat)
| Disconnected (c : nat).

(** One turn of the event loop. The run time calls an interval callback
    only between [setInterval] and [clearInterval], and [onTick] only for a
    socket that was opened (also after its [close()]); an event that cannot
    happen leaves the world as it is. *)
Definition step (w : World) (ev : Event) : World :=
  match ev with
  | Listening => onListening w
  | PostMode v => snd (postMode v w)
  | PostManualDirection v => snd (postManualDirection v w)
  | TimerFires h =>
      if bool_decide (h ∈ timers (effects w)) then manualTick w else w
  | DeltaTick h tick =>
      if bool_decide (h ∈ opened (effects w)) then handleDeltaTick tick w
      else w
  | Connection c => onConnection c w
  | ReadyState c rs =>
      set_clients
        (map (λ x, if Nat.eqb (cid x) c
                   then {| cid := c; readyState := rs |} else x)
             (clients w)) w
  | Disconnected c =>
      set_clients (filter (λ x, cid x ≠ c) (clients w)) w
  end.

Definition run (evs : list Event) : World := foldl step init evs.
End Server.

(** ** Observations on worlds and histories *)

Definition handle_set (o : option Handle) : gset Handle :=
  match o with Some h => {[h]} | None => ∅ end.

(** Not both kinds of producer alive after the history [tr]. *)
Definition exclusive (tr : list Effect) : Prop :=
  timers tr = ∅ ∨ sockets tr = ∅.

(** ... and after every earlier instant of it: the history is newest first,
    so its tails are the instants of the past. *)
Fixpoint exclusive_throughout (tr : list Effect) : Prop :=
  exclusive tr ∧
  match tr with
  | [] => True
  | _ :: tr' => exclusive_throughout tr'
  end.

(** The two handle variables name exactly the producers that are alive. *)
Definition coherent (w : World) : Prop :=
  timers (effects w) = handle_set (manualTimer w) ∧
  sockets (effects w) = handle_set (deltaWs w) ∧
  exclusive_throughout (effects w).

(** In API mode no timer is held, in MANUAL mode no upstream socket, and a
    held timer has a price to step. *)
Definition mode_consistent (w : World) : Prop :=
  match flag w with
  | Flag1 => manualTimer w = None
  | Flag0 => deltaWs w = None
  end ∧
  (manualTimer w ≠ None → currentPrice w ≠ None).

Definition is_open (c : Client) : bool := Nat.eqb (readyState c) 1.

(** The frames one broadcast of [data] adds to the history. *)
Definition frames (data : json) (cs : list Client) : list Effect :=
  reverse (omap (λ c, if is_open c then Some (Send (cid c) data) else None) cs).

Definition is_send (e : Effect) : Prop :=
  match e with Send _ _ => True | _ => False end.

(** [obj.key] of a serialized event. *)
Definition field (obj : json) (key : string) : jsval :=
  match obj with JObject props => prop_lookup props key | _ => None end.

(** What a client of the control surface can tell apart, with the handles
    of the producers. *)
Definition observable (w : World)
  : ModeFlag * ManualDirection * option float * option Handle * option Handle :=
  (flag w, manualDirection w, currentPrice w, manualTimer w, deltaWs w).

(** The mode whose producer an event belongs to: the interval callback is
    the MANUAL producer, [onTick] the API producer. *)
Definition producer_of (ev : Event) : option ModeFlag :=
  match ev with
  | TimerFires _ => Some Flag0
  | DeltaTick _ _ => Some Flag1
  | _ => None
  end.

(** Sample configurations and values for the scenarios. *)
Definition manual_cfg : Config :=
  {| SYMBOL := "BTCUSD"; INITIAL_MODE := "manual"; NODE_ENV_test := false |}.

Definition api_cfg : Config :=
  {| SYMBOL := "BTCUSD"; INITIAL_MODE := "api"; NODE_ENV_test := false |}.

Definition num (f : float) : jsval := Some (JNumber f).
Arguments num f%_float.
Definition str (s : string) : jsval := Some (JString s).

Definition btc_tick (p : float) : Tick :=
  {| symbol := str "BTCUSD"; price := p; time := num 1700000000000%float;
     source := "delta" |}.
Arguments btc_tick p%_float.

(** ** The read-only routes and the feed callback of src/index.ts *)

(** [currentPrice] in a response body: [null] or the number. *)
Definition price_json (p : option float) : json :=
  match p with Some f => JNumber f | None => JNull end.

(** [app.get("/health", ...)] *)
Definition getHealth (cfg : Config) (w : World) : Response :=
  {| status := 200;
     body := JObject [("status", JString "ok");
                      ("symbol", JString (SYMBOL cfg));
                      ("mode", JString (mode_name (flag w)));
                      ("manualDirection",
                       JString (direction_name (manualDirection w)));
                      ("currentPrice", price_json (currentPrice w))] |}.

(** [app.get("/mode", ...)] *)
Definition getMode (w : World) : Response :=
  {| status := 200;
     body := JObject [("flag", JNumber (flag_number (flag w)));
                      ("manualDirection",
                       JString (direction_name (manualDirection w)))] |}.

(** [app.get("/btc-price", ...)] *)
Definition getBtcPrice (w : World) : Response :=
  {| status := 200;
     body := JObject [("price", price_json (currentPrice w));
                      ("mode", JString (mode_name (flag w)));
                      ("manualDirection",
                       JString (direction_name (manualDirection w)))] |}.

(** [startDeltaFeed(SYMBOL, handleDeltaTick)]: the [message] callback of
    the feed with [handleDeltaTick] as its [onTick]. *)
Definition onFeedMessage
  (StringToNumber : string → float) (ObjectToNumber : json → completion float)
  (now : float) (parsed : completion json) (w : World) : World :=
  match on_message StringToNumber ObjectToNumber now parsed with
  | Emitted tick => handleDeltaTick tick w
  | Ignored => w
  | ErrorLogged _ => w
  end.

(** The server holds the handle of the current mode's producer and not the
    other one. *)
Definition producer_held (w : World) : Prop :=
  match flag w with
  | Flag1 => deltaWs w ≠ None ∧ manualTimer w = None
  | Flag0 => manualTimer w ≠ None ∧ deltaWs w = None
  end.

(** The events that cannot move the price in API mode. *)
Definition steers_generator (ev : Event) : Prop :=
  match ev with
  | PostManualDirection _ | TimerFires _ => True
  | _ => False
  end.

End Index.

(** ** src/deltaRest.ts *)

Module DeltaRest.
Import JS.

(** [v == null]: [null] or [undefined]. *)
Definition nullish (v : jsval) : bool :=
  match v with
  | None => true
  | Some JNull => true
  | _ => false
  end.

(** [a ?? b] *)
Definition coalesce (a b : jsval) : jsval := if nullish a then b else a.

(** [v.key] where [v] may be [undefined] ([result[0]] of an empty array);
    the keys read here ([result] and the six price fields) are on no
    prototype either. *)
Definition member_of (v : jsval) (key : string) : completion jsval :=
  match v with
  | None => Throw "TypeError: Cannot read properties of undefined"
  | Some j => member j key
  end.

(** [Array.isArray(v) ? v[0] : v] *)
Definition first_if_array (v : jsval) : jsval :=
  match v with
  | Some (JArray elts) => head elts
  | _ => v
  end.

(** The six fields tried for a price, in the order of the source. *)
Definition price_keys : list string :=
  ["mark_price"; "last_price"; "close"; "spot_price"; "ask"; "bid"].

(** The environment variables read for the client. *)
Record Env := {
  DELTA_API_KEY : option string;
  DELTA_API_SECRET : option string;
}.

(** [response.data]: a string, or something else with the result of
    [data?.toString?.()] ([None] when that is [undefined] or [null]). *)
Inductive ResponseData :=
| DataString (s : string)
| DataOther (to_string : option string).

(** The promise kept in [deltaClientPromise]: it is stored before it is
    awaited, so a rejected one is kept like a resolved one. *)
Inductive ClientPromise :=
| Resolved
| Rejected (err : string).

(** [Promise.resolve(new DeltaRestClient(apiKey, apiSecret))]: the
    constructor throws (nothing is assigned), or gives a client or a promise
    of one, which is assigned, settled either way. *)
Inductive Construction :=
| ConstructorThrows (err : string)
| ConstructorReturns (p : ClientPromise).

(** What a call leaves behind: the value returned, the content of
    [deltaClientPromise] afterwards ([None] is [null]), and whether
    [getTicker] was called. *)
Record Fetched := {
  returned : option float;
  client_promise : option ClientPromise;
  requested : bool;
}.

Section Fetch.
Variable StringToNumber : string → float.
Variable ObjectToNumber : json → completion float.
(** [Number(n.toFixed(2))] and [JSON.parse] are the run time's. *)
Variable toFixed2 : float → float.
Variable JSON_parse : string → completion json.

#[local] Abbreviation Number := (JS.Number StringToNumber ObjectToNumber).

Definition formatToTwoDecimals (num : jsval) : completion (option float) :=
  n ← Number num;
  if is_nan n then mret None else mret (Some (toFixed2 n)).

(** [let ticker = body; if (body.result) ticker = ...] *)
Definition ticker_of (body : json) : completion jsval :=
  result ← member body "result";
  if truthy result then mret (first_if_array result) else mret (Some body).

(** [ticker.mark_price ?? ticker.last_price ?? ... ?? ticker.bid ?? null] *)
Definition raw_price (ticker : jsval) : completion jsval :=
  mark_price ← member_of ticker "mark_price";
  if negb (nullish mark_price) then mret mark_price else
  last_price ← member_of ticker "last_price";
  if negb (nullish last_price) then mret last_price else
  close ← member_of ticker "close";
  if negb (nullish close) then mret close else
  spot_price ← member_of ticker "spot_price";
  if negb (nullish spot_price) then mret spot_price else
  ask ← member_of ticker "ask";
  if negb (nullish ask) then mret ask else
  bid ← member_of ticker "bid";
  mret (coalesce bid (Some JNull)).

(** From [JSON.parse(rawData)] to the [return] statements of the [try]
    block. *)
Definition price_of_raw_data (rawData : string) : completion (option float) :=
  body ← JSON_parse rawData;
  ticker ← ticker_of body;
  rawPrice ← raw_price ticker;
  if nullish rawPrice then mret None else
  formatToTwoDecimals rawPrice.

(** The part of the [try] block after the client is there; [response] is the
    completion of [await client.apis.Products.getTicker({ symbol })]. *)
Definition price_of_response (response : completion ResponseData)
  : completion (option float) :=
  data ← response;
  let rawData := match data with
                 | DataString s => s
                 | DataOther to_string => default EmptyString to_string
                 end in
  if String.eqb rawData EmptyString then mret None else
  price_of_raw_data rawData.

(** From [const client = await deltaClientPromise] on, for the promise [p]
    that [deltaClientPromise] holds: a rejected promise throws at the
    [await], before [getTicker]; the [catch] returns [null]. *)
Definition with_client (p : ClientPromise)
  (response : completion ResponseData) : Fetched :=
  match p with
  | Rejected _ =>
      {| returned := None; client_promise := Some p; requested := false |}
  | Resolved =>
      {| returned := match price_of_response response with
                     | Normal price => price
                     | Throw _ => None
                     end;
         client_promise := Some p;
         requested := true |}
  end.

(** [fetchDeltaRestPrice]: [cached] is [deltaClientPromise] on entry and
    [construct] what [new DeltaRestClient(...)] does if it is reached. The
    [catch] turns every exception into [null]. *)
Definition fetchDeltaRestPrice (env : Env) (cached : option ClientPromise)
  (construct : Construction) (response : completion ResponseData)
  : Fetched :=
  match cached with
  | Some p => with_client p response
  | None =>
      let apiKey := default EmptyString (DELTA_API_KEY env) in
      let apiSecret := default EmptyString (DELTA_API_SECRET env) in
      if String.eqb apiKey EmptyString || String.eqb apiSecret EmptyString
      then {| returned := None; client_promise := None; requested := false |}
      else match construct with
           | ConstructorThrows _ =>
               {| returned := None; client_promise := None;
                  requested := false |}
           | ConstructorReturns p => with_client p response
           end
  end.
End Fetch.

(** A parser that knows the payloads of the examples. *)
Definition sample_parse (s : string) : completion json :=
  if String.eqb s "bare" then
    Normal (JObject [("mark_price", JNumber 0); ("last_price", JNumber 7)])
  else if String.eqb s "wrapped" then
    Normal (JObject [("result",
              JObject [("mark_price", JNumber 0); ("last_price", JNumber 7)])])
  else if String.eqb s "text" then
    Normal (JObject [("mark_price", JString "n/a"); ("last_price", JNumber 7)])
  else if String.eqb s "late" then
    Normal (JObject [("mark_price", JNull); ("close", JNumber 7)])
  else Throw "SyntaxError".

End DeltaRest.

(** ** src/index.js, the JavaScript version of index.ts

    The same module state and helpers; [startDeltaMode] and the callback of
    [server.listen] do not look at [NODE_ENV]. The helpers that are the same
    text in both files are shared. *)

Module IndexJs.
Import JS.
Import Index.

Section Server.
Variable cfg : Config.

Definition startDeltaMode (w : World) : World :=
  let w := stopManualLoop w in
  match deltaWs w with
  | None =>
      let '(h, w) := fresh w in
      set_deltaWs (Some h) (emit (StartDeltaFeed h (SYMBOL cfg)) w)
  | Some _ => w
  end.

(** [app.post("/mode", ...)] *)
Definition postMode (newFlag : jsval) (w : World) : Response * World :=
  match accepted_flag newFlag with
  | None =>
      ({| status := 400;
          body := JObject [("error", JString "flag must be 0 or 1")] |}, w)
  | Some f =>
      let w := set_flag f w in
      let w := match flag w with
               | Flag1 =>
                   let w := set_manualDirection DirNone w in
                   let w := stopManualLoop w in
                   startDeltaMode w
               | Flag0 =>
                   let w := set_manualDirection DirNone w in
                   startManualLoop w
               end in
      ({| status := 200;
          body := JObject [("flag", JNumber (flag_number (flag w)));
                           ("manualDirection",
                            JString (direction_name (manualDirection w)))] |},
       w)
  end.

(** The callback of [server.listen]. *)
Definition onListening (w : World) : World :=
  match flag w with
  | Flag1 => startDeltaMode w
  | Flag0 => startManualLoop w
  end.

Definition step (w : World) (ev : Event) : World :=
  match ev with
  | Listening => onListening w
  | PostMode v => snd (postMode v w)
  | ev => Index.step cfg w ev
  end.

Definition run (evs : list Event) : World := foldl step (init cfg) evs.
End Server.

End IndexJs.

(** * Properties *)

Import JS DeltaFeed Index.
#[local] Set Warnings "-clear-no-such-hyp".

(** ** Producers: the handle variables and the history agree *)

Lemma exclusive_throughout_now tr : exclusive_throughout tr → exclusive tr.
Proof. destruct tr; simpl; tauto. Qed.

Lemma handle_set_empty o : handle_set o = ∅ ↔ o = None.
Proof. destruct o; simpl; split; done. Qed.

Lemma coherent_one_handle w :
  coherent w → manualTimer w = None ∨ deltaWs w = None.
Proof.
  intros (Ht & Hs & Hx). apply exclusive_throughout_now in Hx as [H|H].
  - left. apply handle_set_empty. by rewrite <- Ht.
  - right. apply handle_set_empty. by rewrite <- Hs.
Qed.

(** Unfolds a coherence goal on a world given by its fields into equations
    between sets of handles, and solves them. *)
Ltac producers :=
  repeat match goal with
  | H : coherent _ |- _ => destruct H as (? & ? & ?)
  end;
  unfold coherent, exclusive in *; simpl in *; unfold exclusive in *;
  simpl in *;
  repeat match goal with
  | H : timers _ = _ |- _ => rewrite !H; clear H
  | H : sockets _ = _ |- _ => rewrite !H; clear H
  end;
  split_and?; try done; set_solver.

(** Evaluates the helpers on a world given by its fields, innermost call
    first. *)
Ltac run_helpers :=
  cbv [startDeltaMode startManualLoop stopManualLoop stopDeltaMode
       fresh emit set_manualTimer set_deltaWs set_currentPrice set_flag
       set_manualDirection set_clients
       flag manualDirection currentPrice manualTimer deltaWs clients
       nextHandle effects default].

Ltac by_cases_on_world w :=
  destruct w as [fl dir [p|] [t|] [s|] cs nh tr]; run_helpers;
  try match goal with
      | |- context [NODE_ENV_test ?c] => destruct (NODE_ENV_test c)
      end;
  done.

Section Producers.
Variable cfg : Config.

Lemma stopManualLoop_coherent w :
  coherent w → coherent (stopManualLoop w).
Proof.
  intros H. unfold stopManualLoop.
  destruct w as [fl dir pr [h|] ws cs nh tr]; [|done]. producers.
Qed.

Lemma stopDeltaMode_coherent w :
  coherent w → coherent (stopDeltaMode w).
Proof.
  intros H. unfold stopDeltaMode.
  destruct w as [fl dir pr mt [h|] cs nh tr]; [|done]. producers.
Qed.

Lemma stopManualLoop_manualTimer w : manualTimer (stopManualLoop w) = None.
Proof. unfold stopManualLoop. by destruct (manualTimer w) eqn:E. Qed.

Lemma stopDeltaMode_deltaWs w : deltaWs (stopDeltaMode w) = None.
Proof. unfold stopDeltaMode. by destruct (deltaWs w) eqn:E. Qed.

Lemma startDeltaMode_coherent w :
  coherent w → coherent (startDeltaMode cfg w).
Proof.
  intros H. unfold startDeltaMode.
  pose proof (stopManualLoop_coherent w H) as H'.
  pose proof (stopManualLoop_manualTimer w) as Hmt.
  revert H' Hmt. generalize (stopManualLoop w). clear w H.
  intros [fl dir pr mt [h|] cs nh tr] H Hmt; [done|].
  simpl in Hmt. subst mt. simpl.
  destruct (NODE_ENV_test cfg); [done|]. producers.
Qed.

Lemma startManualLoop_coherent w :
  coherent w → coherent (startManualLoop w).
Proof.
  intros H. unfold startManualLoop.
  pose proof (stopDeltaMode_coherent w H) as H'.
  pose proof (stopDeltaMode_deltaWs w) as Hws.
  revert H' Hws. generalize (stopDeltaMode w). clear w H.
  intros [fl dir pr mt ws cs nh tr] H Hws. simpl in Hws. subst ws.
  destruct pr as [p|], mt as [h|]; producers.
Qed.

(** *** What the helpers leave alone *)

Lemma startDeltaMode_vars w :
  flag (startDeltaMode cfg w) = flag w ∧
  manualDirection (startDeltaMode cfg w) = manualDirection w ∧
  currentPrice (startDeltaMode cfg w) = currentPrice w ∧
  clients (startDeltaMode cfg w) = clients w ∧
  manualTimer (startDeltaMode cfg w) = None.
Proof. by_cases_on_world w. Qed.

Lemma stopManualLoop_vars w :
  flag (stopManualLoop w) = flag w ∧
  manualDirection (stopManualLoop w) = manualDirection w ∧
  currentPrice (stopManualLoop w) = currentPrice w ∧
  clients (stopManualLoop w) = clients w ∧
  deltaWs (stopManualLoop w) = deltaWs w.
Proof. by_cases_on_world w. Qed.

Lemma startManualLoop_vars w :
  flag (startManualLoop w) = flag w ∧
  manualDirection (startManualLoop w) = manualDirection w ∧
  currentPrice (startManualLoop w)
    = Some (default 100%float (currentPrice w)) ∧
  clients (startManualLoop w) = clients w ∧
  deltaWs (startManualLoop w) = None ∧
  manualTimer (startManualLoop w) = Some (nextHandle w) ∧
  nextHandle (startManualLoop w) = S (nextHandle w).
Proof. by_cases_on_world w. Qed.

(** *** The broadcast *)

Lemma send_each_spec data cs w :
  send_each data cs w =
  {| flag := flag w; manualDirection := manualDirection w;
     currentPrice := currentPrice w; manualTimer := manualTimer w;
     deltaWs := deltaWs w; clients := clients w;
     nextHandle := nextHandle w;
     effects := frames data cs ++ effects w |}.
Proof.
  revert w. induction cs as [|c cs IH]; intros w.
  - by destruct w.
  - simpl. rewrite IH. unfold frames. simpl. fold (is_open c).
    destruct (is_open c); simpl; [|done].
    rewrite reverse_cons, <- app_assoc. done.
Qed.

Lemma frames_are_sends data cs : Forall is_send (frames data cs).
Proof.
  unfold frames. apply Forall_reverse. induction cs as [|c cs IH]; simpl.
  - constructor.
  - destruct (is_open c); [constructor|]; done.
Qed.

Lemma sends_keep_producers l tr :
  Forall is_send l →
  timers (l ++ tr) = timers tr ∧ sockets (l ++ tr) = sockets tr ∧
  opened (l ++ tr) = opened tr ∧
  (exclusive_throughout tr → exclusive_throughout (l ++ tr)).
Proof.
  induction 1 as [|e l He _ (IHt & IHs & IHo & IHx)]; [done|].
  destruct e; try done. simpl. split_and!; try done.
  intros Hx. split; [|by apply IHx].
  unfold exclusive. simpl. rewrite IHt, IHs.
  by apply exclusive_throughout_now.
Qed.

Lemma handleDeltaTick_spec tick w :
  handleDeltaTick tick w =
  {| flag := flag w; manualDirection := manualDirection w;
     currentPrice := match flag w with
                     | Flag1 => Some (price tick)
                     | Flag0 => currentPrice w
                     end;
     manualTimer := manualTimer w;
     deltaWs := deltaWs w; clients := clients w;
     nextHandle := nextHandle w;
     effects := frames (tick_event tick (flag w)) (clients w) ++ effects w |}.
Proof.
  unfold handleDeltaTick, broadcastTick. rewrite send_each_spec.
  by destruct w as [[|] dir pr mt ws cs nh tr].
Qed.

(** *** Every turn of the event loop keeps the invariants *)

Lemma postMode_invariant v w :
  coherent w → mode_consistent w →
  coherent (snd (postMode cfg v w)) ∧ mode_consistent (snd (postMode cfg v w)).
Proof.
  intros Hc Hm. unfold postMode. destruct (accepted_flag v) as [[|]|]; simpl.
  - pose proof (startManualLoop_coherent
                  (set_manualDirection DirNone (set_flag Flag0 w)) Hc) as H.
    pose proof (startManualLoop_vars
                  (set_manualDirection DirNone (set_flag Flag0 w)))
      as (Hf & _ & Hp & _ & Hws & _).
    split; [done|]. unfold mode_consistent. rewrite Hf, Hp. done.
  - pose proof (stopManualLoop_coherent
                  (set_manualDirection DirNone (set_flag Flag1 w)) Hc) as H.
    apply startDeltaMode_coherent in H.
    split; [done|]. unfold mode_consistent.
    match goal with |- context [startDeltaMode cfg ?x] =>
      pose proof (startDeltaMode_vars x) as (Hf & _ & _ & _ & Hmt);
      pose proof (stopManualLoop_vars
                    (set_manualDirection DirNone (set_flag Flag1 w)))
        as (Hf' & _) end.
    rewrite Hf, Hf', Hmt. done.
  - done.
Qed.

Lemma onListening_invariant w :
  coherent w → mode_consistent w →
  coherent (onListening cfg w) ∧ mode_consistent (onListening cfg w).
Proof.
  intros Hc Hm. unfold onListening. destruct (NODE_ENV_test cfg); [done|].
  destruct (flag w) eqn:Hfl.
  - pose proof (startManualLoop_vars w) as (Hf & _ & Hp & _ & Hws & _).
    split; [by apply startManualLoop_coherent|].
    unfold mode_consistent. rewrite Hf, Hfl, Hp. done.
  - pose proof (startDeltaMode_vars w) as (Hf & _ & _ & _ & Hmt).
    split; [by apply startDeltaMode_coherent|].
    unfold mode_consistent. rewrite Hf, Hfl, Hmt. done.
Qed.

Lemma handleDeltaTick_invariant tick w :
  coherent w → mode_consistent w →
  coherent (handleDeltaTick tick w) ∧ mode_consistent (handleDeltaTick tick w).
Proof.
  intros (Ht & Hs & Hx) (Hm & Hp). rewrite handleDeltaTick_spec.
  pose proof (sends_keep_producers _ (effects w)
                (frames_are_sends (tick_event tick (flag w)) (clients w)))
    as (Ht' & Hs' & _ & Hx').
  split.
  - unfold coherent. simpl. rewrite Ht', Hs'. auto.
  - unfold mode_consistent. simpl. split; [done|].
    destruct (flag w); [done|]. intros _. done.
Qed.

Lemma step_invariant w ev :
  coherent w → mode_consistent w →
  coherent (step cfg w ev) ∧ mode_consistent (step cfg w ev).
Proof.
  intros Hc Hm. destruct ev; simpl.
  - by apply onListening_invariant.
  - by apply postMode_invariant.
  - unfold postManualDirection. by destruct (accepted_direction direction).
  - case_bool_decide; [|done]. unfold manualTick.
    destruct Hm as (Hm & Hp).
    destruct (manualDirection w); (split; [done|]); split; done.
  - case_bool_decide; [|done]. by apply handleDeltaTick_invariant.
  - destruct Hc as (Ht & Hs & Hx). split; [|done].
    unfold coherent. simpl. split_and!; try done.
    exact (exclusive_throughout_now _ Hx).
  - done.
  - done.
Qed.

Lemma init_invariant : coherent (init cfg) ∧ mode_consistent (init cfg).
Proof.
  unfold coherent, mode_consistent, exclusive, init. simpl.
  split_and!; try done; [by left|].
  by destruct (String.eqb (INITIAL_MODE cfg) "manual").
Qed.

Lemma foldl_step_invariant evs w :
  coherent w → mode_consistent w →
  coherent (foldl (step cfg) w evs) ∧ mode_consistent (foldl (step cfg) w evs).
Proof.
  revert w. induction evs as [|ev evs IH]; intros w Hc Hm; [done|].
  simpl. destruct (step_invariant w ev Hc Hm). by apply IH.
Qed.

Lemma run_invariant evs :
  coherent (run cfg evs) ∧ mode_consistent (run cfg evs).
Proof. apply foldl_step_invariant; apply init_invariant. Qed.
End Producers.

(** ** The handler of POST /mode, by cases *)

Lemma accepted_flag_0 : accepted_flag (num 0) = Some Flag0.
Proof. reflexivity. Qed.

Lemma accepted_flag_1 : accepted_flag (num 1) = Some Flag1.
Proof. reflexivity. Qed.

Lemma postMode_accepted cfg v f w :
  accepted_flag v = Some f →
  status (fst (postMode cfg v w)) = 200 ∧
  snd (postMode cfg v w) =
  match f with
  | Flag1 => startDeltaMode cfg
               (stopManualLoop (set_manualDirection DirNone (set_flag Flag1 w)))
  | Flag0 => startManualLoop (set_manualDirection DirNone (set_flag Flag0 w))
  end.
Proof. intros H. unfold postMode. rewrite H. by destruct f. Qed.

Lemma postMode_rejected cfg v w :
  accepted_flag v = None →
  postMode cfg v w =
  ({| status := 400;
      body := JObject [("error", JString "flag must be 0 or 1")] |}, w).
Proof. intros H. unfold postMode. by rewrite H. Qed.

(** ** The claims about the two producers *)

(** The predicate has teeth: a history that opens the feed while the timer
    is still running is refused, whatever happens later. *)
Example start_before_stop_is_not_exclusive :
  ¬ exclusive_throughout [ClearInterval 0; StartDeltaFeed 1 "BTCUSD"; SetInterval 0].
Proof.
  simpl. unfold exclusive. simpl. intros (_ & [H|H] & _); set_solver.
Qed.

Lemma switch_to_api_effects cfg w h :
  manualTimer w = Some h → deltaWs w = None →
  effects (step cfg w (PostMode (num 1))) =
  ((if NODE_ENV_test cfg then []
    else [StartDeltaFeed (nextHandle w) (SYMBOL cfg)])
   ++ ClearInterval h :: effects w)%list.
Proof.
  intros Hmt Hws.
  change (step cfg w (PostMode (num 1))) with (snd (postMode cfg (num 1) w)).
  unfold postMode. rewrite accepted_flag_1.
  destruct w as [fl dir pr mt ws cs nh tr]. simpl in Hmt, Hws. subst.
  run_helpers. by destruct (NODE_ENV_test cfg).
Qed.

Lemma switch_to_manual_effects cfg w h :
  deltaWs w = Some h → manualTimer w = None →
  effects (step cfg w (PostMode (num 0))) =
  SetInterval (nextHandle w) :: CloseSocket h :: effects w.
Proof.
  intros Hws Hmt.
  change (step cfg w (PostMode (num 0))) with (snd (postMode cfg (num 0) w)).
  unfold postMode. rewrite accepted_flag_0.
  destruct w as [fl dir pr mt ws cs nh tr]. simpl in Hmt, Hws. subst.
  run_helpers. by destruct pr.
Qed.

(** C1. Whatever the event loop has run since the module was loaded (any
    sequence of POST /mode requests, mixed with any other event), the
    history of effects never has a timer and an upstream socket alive at the
    same instant, the variables [manualTimer] and [deltaWs] name exactly the
    producers that are alive, so at most one of them is set, and a switch
    performs the stop of the running producer before the start of the new
    one. *)
Theorem at_most_one_producer (cfg : Config) (evs : list Event) :
  let w := run cfg evs in
  exclusive_throughout (effects w) ∧
  timers (effects w) = handle_set (manualTimer w) ∧
  sockets (effects w) = handle_set (deltaWs w) ∧
  (manualTimer w = None ∨ deltaWs w = None) ∧
  (∀ h, manualTimer w = Some h →
     effects (step cfg w (PostMode (num 1))) =
     ((if NODE_ENV_test cfg then []
       else [StartDeltaFeed (nextHandle w) (SYMBOL cfg)])
      ++ ClearInterval h :: effects w)%list) ∧
  (∀ h, deltaWs w = Some h →
     effects (step cfg w (PostMode (num 0))) =
     SetInterval (nextHandle w) :: CloseSocket h :: effects w).
Proof.
  intros w. destruct (run_invariant cfg evs) as (Hc & _). fold w in Hc.
  pose proof (coherent_one_handle w Hc) as Hone.
  destruct Hc as (Ht & Hs & Hx). split_and!; try done.
  - intros h Hh. apply switch_to_api_effects; [done|].
    destruct Hone; congruence.
  - intros h Hh. apply switch_to_manual_effects; [done|].
    destruct Hone; congruence.
Qed.

Lemma at_most_one_producer_witness :
  effects (step manual_cfg (run manual_cfg [Listening]) (PostMode (num 1))) =
  [StartDeltaFeed 1 "BTCUSD"; ClearInterval 0; SetInterval 0] ∧
  effects (step api_cfg (run api_cfg [Listening]) (PostMode (num 0))) =
  [SetInterval 1; CloseSocket 0; StartDeltaFeed 0 "BTCUSD"].
Proof.
  split.
  - exact (proj1 (proj2 (proj2 (proj2 (proj2
             (at_most_one_producer manual_cfg [Listening]))))) 0 eq_refl).
  - exact (proj2 (proj2 (proj2 (proj2 (proj2
             (at_most_one_producer api_cfg [Listening]))))) 0 eq_refl).
Defined.

(** In API mode no interval is alive, so the run time has no timer callback
    to call. *)
Lemma no_timer_in_api_mode cfg evs :
  flag (run cfg evs) = Flag1 → timers (effects (run cfg evs)) = ∅.
Proof.
  intros Hf. destruct (run_invariant cfg evs) as ((Ht & _) & (Hm & _)).
  rewrite Hf in Hm. by rewrite Ht, Hm.
Qed.

(** The callback itself does not look at [flag]: the isolation of the MANUAL
    producer rests on [clearInterval], not on a test in the callback. *)
Remark manualTick_has_no_mode_test :
  let w := set_manualDirection DirUp (set_flag Flag1 (run manual_cfg [Listening])) in
  flag w = Flag1 ∧ currentPrice w = Some 100%float ∧
  currentPrice (manualTick w) = Some 110%float.
Proof. by vm_compute. Qed.

(** C2. In every world the server can reach, an event of a producer whose
    mode is not the current one leaves [currentPrice] as it is: a Delta tick
    handled while [flag] is 0 is not stored, and in API mode there is no
    timer callback left to run. *)
Theorem mismatched_source_keeps_price
  (cfg : Config) (evs : list Event) (ev : Event) (m : ModeFlag) :
  producer_of ev = Some m →
  flag (run cfg evs) ≠ m →
  currentPrice (step cfg (run cfg evs) ev) = currentPrice (run cfg evs).
Proof.
  intros Hp Hf. destruct ev; simplify_eq/=.
  - rewrite no_timer_in_api_mode; [done|]. by destruct (flag (run cfg evs)).
  - case_bool_decide; [|done]. rewrite handleDeltaTick_spec. simpl.
    by destruct (flag (run cfg evs)).
Qed.

Lemma mismatched_source_keeps_price_witness :
  currentPrice (step api_cfg
      (run api_cfg [Listening; DeltaTick 0 (btc_tick 50000); PostMode (num 0)])
      (DeltaTick 0 (btc_tick 50001)))
  = Some 50000%float.
Proof.
  exact (mismatched_source_keeps_price api_cfg
           [Listening; DeltaTick 0 (btc_tick 50000); PostMode (num 0)]
           (DeltaTick 0 (btc_tick 50001)) Flag1 eq_refl
           ltac:(vm_compute; discriminate)).
Defined.

(** ** The synthetic generator *)

(** C6. Switching to MANUAL leaves [currentPrice] at 100 when it was [null]
    and as it was otherwise; while the interval is alive [currentPrice] is a
    number, and one firing of the timer adds 10 to it when the direction is
    up, subtracts 10 when it is down and leaves it when it is none (the
    additions are those of JavaScript numbers); from MANUAL mode with no
    price and direction none the first firing leaves 100, and after the
    direction is set to up the next two give 110 and 120. *)
Theorem synthetic_generator_steps (cfg : Config) (evs : list Event) :
  let w := run cfg evs in
  currentPrice (step cfg w (PostMode (num 0)))
    = Some (default 100%float (currentPrice w)) ∧
  (∀ h, h ∈ timers (effects w) →
     ∃ p, currentPrice w = Some p ∧
          currentPrice (step cfg w (TimerFires h)) =
          Some (match manualDirection w with
                | DirUp => (p + 10)%float
                | DirDown => (p - 10)%float
                | DirNone => p
                end)) ∧
  (currentPrice (init manual_cfg) = None ∧
   currentPrice (run manual_cfg [Listening; TimerFires 0]) = Some 100%float ∧
   currentPrice (run manual_cfg [Listening; TimerFires 0;
                                 PostManualDirection (str "up");
                                 TimerFires 0]) = Some 110%float ∧
   currentPrice (run manual_cfg [Listening; TimerFires 0;
                                 PostManualDirection (str "up");
                                 TimerFires 0; TimerFires 0]) = Some 120%float).
Proof.
  intros w. split; [|split].
  - change (step cfg w (PostMode (num 0))) with (snd (postMode cfg (num 0) w)).
    destruct (postMode_accepted cfg _ _ w accepted_flag_0) as (_ & ->).
    destruct (startManualLoop_vars
                (set_manualDirection DirNone (set_flag Flag0 w)))
      as (_ & _ & Hp & _).
    exact Hp.
  - intros h Hh. destruct (run_invariant cfg evs) as ((Ht & _) & (_ & Hp)).
    fold w in Ht, Hp. rewrite Ht in Hh.
    destruct (manualTimer w) as [t|]; [|set_solver].
    destruct (currentPrice w) as [p|] eqn:Hcp; [|by destruct Hp].
    exists p. split; [done|]. simpl. rewrite Ht. simpl.
    rewrite bool_decide_eq_true_2 by done.
    unfold manualTick. rewrite Hcp. by destruct (manualDirection w).
  - by vm_compute.
Qed.

Lemma synthetic_generator_steps_witness :
  ∃ p, currentPrice (run manual_cfg [Listening; PostManualDirection (str "down")])
         = Some p ∧
       currentPrice (step manual_cfg
                       (run manual_cfg [Listening; PostManualDirection (str "down")])
                       (TimerFires 0))
         = Some (p - 10)%float.
Proof.
  exact (proj1 (proj2 (synthetic_generator_steps manual_cfg
                         [Listening; PostManualDirection (str "down")]))
           0 ltac:(vm_compute; set_solver)).
Defined.

(** ** The control surface *)

(** C7. A POST /mode request that is answered with 200 leaves
    [manualDirection] at none, whatever the mode was before and whether or
    not the request changes it. *)
Theorem setMode_resets_direction (cfg : Config) (newFlag : jsval) (w : World) :
  status (fst (postMode cfg newFlag w)) = 200 →
  manualDirection (snd (postMode cfg newFlag w)) = DirNone.
Proof.
  destruct (accepted_flag newFlag) as [[|]|] eqn:Hv.
  - intros _. destruct (postMode_accepted cfg _ _ w Hv) as (_ & ->).
    by destruct (startManualLoop_vars
                   (set_manualDirection DirNone (set_flag Flag0 w)))
      as (_ & -> & _).
  - intros _. destruct (postMode_accepted cfg _ _ w Hv) as (_ & ->).
    match goal with |- context [startDeltaMode cfg ?x] =>
      destruct (startDeltaMode_vars cfg x) as (_ & -> & _) end.
    by destruct (stopManualLoop_vars
                   (set_manualDirection DirNone (set_flag Flag1 w)))
      as (_ & -> & _).
  - rewrite (postMode_rejected cfg _ w Hv). discriminate.
Qed.

Lemma setMode_resets_direction_witness :
  manualDirection (run manual_cfg [Listening; PostManualDirection (str "up")])
    = DirUp ∧
  manualDirection
    (snd (postMode manual_cfg (num 0)
            (run manual_cfg [Listening; PostManualDirection (str "up")])))
    = DirNone.
Proof.
  split; [reflexivity|].
  exact (setMode_resets_direction manual_cfg (num 0)
           (run manual_cfg [Listening; PostManualDirection (str "up")])
           eq_refl).
Defined.

(** C8. A POST /mode request whose flag is not the number 0 or 1, and a
    POST /manual-direction request whose direction is not one of the strings
    up, down, none, is answered with status 400 and leaves the whole world
    (mode, direction, price, both handles, subscribers, history of effects)
    as it was. *)
Theorem invalid_requests_are_rejected (cfg : Config) (v : jsval) (w : World) :
  ((∀ f, v = Some (JNumber f) →
         (f =? 0)%float = false ∧ (f =? 1)%float = false) →
   postMode cfg v w =
   ({| status := 400;
       body := JObject [("error", JString "flag must be 0 or 1")] |}, w)) ∧
  (v ≠ str "up" → v ≠ str "down" → v ≠ str "none" →
   postManualDirection v w =
   ({| status := 400;
       body := JObject [("error",
                 JString "direction must be 'up', 'down' or 'none'")] |}, w)).
Proof.
  split.
  - intros H. apply postMode_rejected.
    unfold accepted_flag, strict_eq_number.
    destruct v as [[| |f| | |]|]; try done.
    destruct (H f eq_refl) as (-> & ->). done.
  - intros Hu Hd Hn. unfold postManualDirection.
    assert (accepted_direction v = None) as ->; [|done].
    unfold accepted_direction, strict_eq_string.
    destruct v as [[| | |s| |]|]; try done.
    destruct (String.eqb_spec s "up") as [->|_]; [done|].
    destruct (String.eqb_spec s "down") as [->|_]; [done|].
    destruct (String.eqb_spec s "none") as [->|_]; done.
Qed.

Lemma invalid_requests_are_rejected_witness :
  postMode api_cfg (num 2) (run api_cfg [Listening; DeltaTick 0 (btc_tick 50000)])
  = ({| status := 400;
        body := JObject [("error", JString "flag must be 0 or 1")] |},
     run api_cfg [Listening; DeltaTick 0 (btc_tick 50000)]) ∧
  postManualDirection (str "sideways")
    (run api_cfg [Listening; DeltaTick 0 (btc_tick 50000)])
  = ({| status := 400;
        body := JObject [("error",
                  JString "direction must be 'up', 'down' or 'none'")] |},
     run api_cfg [Listening; DeltaTick 0 (btc_tick 50000)]).
Proof.
  split.
  - apply (proj1 (invalid_requests_are_rejected api_cfg (num 2)
                    (run api_cfg [Listening; DeltaTick 0 (btc_tick 50000)]))).
    intros f [= <-]. split; reflexivity.
  - apply (proj2 (invalid_requests_are_rejected api_cfg (str "sideways")
                    (run api_cfg [Listening; DeltaTick 0 (btc_tick 50000)])));
      discriminate.
Defined.

(** ** The feed handler *)

Section Feed.
Variable StringToNumber : string → float.
Variable ObjectToNumber : json → completion float.

#[local] Abbreviation on_message := (on_message StringToNumber ObjectToNumber).
#[local] Abbreviation price_of := (price_of StringToNumber ObjectToNumber).

(** The handler on an object, with the three tests of the source spelled
    out. *)
Lemma on_message_object now props :
  on_message now (Normal (JObject props)) =
  if negb (truthy (prop_lookup props "symbol")) then Ignored
  else if negb (truthy (prop_lookup props "mark_price"))
          && negb (truthy (prop_lookup props "close")) then Ignored
  else match price_of (prop_lookup props "mark_price")
                      (prop_lookup props "close")
                      (prop_lookup props "spot_price") with
       | Throw err => ErrorLogged err
       | Normal p =>
           if negb (truthy_number p) then Ignored
           else Emitted {| symbol := prop_lookup props "symbol";
                           price := p;
                           time := if truthy (prop_lookup props "timestamp")
                                   then prop_lookup props "timestamp"
                                   else Some (JNumber now);
                           source := "delta" |}
       end.
Proof.
  unfold DeltaFeed.on_message, message_body. simpl.
  destruct (truthy (prop_lookup props "symbol")); simpl; [|done].
  destruct (negb (truthy (prop_lookup props "mark_price"))
            && negb (truthy (prop_lookup props "close"))); simpl; [done|].
  destruct (price_of _ _ _) as [p|err]; simpl; [|done].
  by destruct (truthy_number p).
Qed.

(** Anything that is not an object carries no symbol: no tick. *)
Lemma on_message_not_object now parsed t :
  on_message now parsed = Emitted t → ∃ props, parsed = Normal (JObject props).
Proof.
  destruct parsed as [[| | | | |props]|err]; try done. by exists props.
Qed.

Lemma emitted_tick now parsed t :
  on_message now parsed = Emitted t →
  ∃ props,
    parsed = Normal (JObject props) ∧
    truthy (prop_lookup props "symbol") = true ∧
    (truthy (prop_lookup props "mark_price") = true ∨
     truthy (prop_lookup props "close") = true) ∧
    price_of (prop_lookup props "mark_price") (prop_lookup props "close")
             (prop_lookup props "spot_price") = Normal (price t) ∧
    truthy_number (price t) = true ∧
    symbol t = prop_lookup props "symbol" ∧
    source t = "delta".
Proof.
  intros H. destruct (on_message_not_object _ _ _ H) as (props & ->).
  exists props. split; [done|]. rewrite on_message_object in H.
  destruct (truthy (prop_lookup props "symbol")); [|done].
  destruct (truthy (prop_lookup props "mark_price")),
           (truthy (prop_lookup props "close")); simpl in H; try done;
    (destruct (price_of _ _ _) as [p|err]; [|done];
     destruct (truthy_number p) eqn:Hp; simplify_eq/=; split_and!; auto).
Qed.

(** C9. The message handler calls [onTick] only for an object with a truthy
    [symbol], a truthy [mark_price] or [close] and a price
    [Number(mark_price) || Number(close) || Number(spot_price)] that is
    truthy, and the tick carries that price; an object without [symbol], an
    object with neither [mark_price] nor [close], and an object whose price
    is falsy (0, -0 or NaN), in particular equal to 0, end in an early
    return: no tick, and nothing thrown or logged. *)
Theorem feed_handler_drops_unpriced_messages
  (now : float) (parsed : completion json) (props : list (string * json)) :
  (∀ t, on_message now parsed = Emitted t →
     ∃ obj, parsed = Normal (JObject obj) ∧
       truthy (prop_lookup obj "symbol") = true ∧
       (truthy (prop_lookup obj "mark_price") = true ∨
        truthy (prop_lookup obj "close") = true) ∧
       price_of (prop_lookup obj "mark_price") (prop_lookup obj "close")
                (prop_lookup obj "spot_price") = Normal (price t) ∧
       truthy_number (price t) = true) ∧
  (prop_lookup props "symbol" = None →
     on_message now (Normal (JObject props)) = Ignored) ∧
  (prop_lookup props "mark_price" = None → prop_lookup props "close" = None →
     on_message now (Normal (JObject props)) = Ignored) ∧
  (∀ p, price_of (prop_lookup props "mark_price") (prop_lookup props "close")
                 (prop_lookup props "spot_price") = Normal p →
        truthy_number p = false →
        on_message now (Normal (JObject props)) = Ignored) ∧
  (∀ p, price_of (prop_lookup props "mark_price") (prop_lookup props "close")
                 (prop_lookup props "spot_price") = Normal p →
        (p =? 0)%float = true →
        on_message now (Normal (JObject props)) = Ignored).
Proof.
  assert (∀ p, price_of (prop_lookup props "mark_price")
                 (prop_lookup props "close")
                 (prop_lookup props "spot_price") = Normal p →
               truthy_number p = false →
               on_message now (Normal (JObject props)) = Ignored) as Hfalsy.
  { intros p Hp Hz. rewrite on_message_object, Hp, Hz. simpl.
    by repeat case_match. }
  split_and!.
  - intros t H. destruct (emitted_tick _ _ _ H)
      as (obj & ? & ? & ? & ? & ? & _). by exists obj.
  - intros H. by rewrite on_message_object, H.
  - intros Hm Hc. rewrite on_message_object, Hm, Hc. simpl.
    by destruct (truthy (prop_lookup props "symbol")).
  - done.
  - intros p Hp Hz. apply (Hfalsy p Hp). unfold truthy_number.
    change (is_zero p) with (p =? 0)%float. by rewrite Hz.
Qed.
End Feed.

(** A heartbeat without symbol, a message without price fields, and a
    message whose price is 0 (with a string conversion that knows the
    literal it needs). *)
Lemma feed_handler_drops_unpriced_messages_witness :
  on_message (λ _, nan) (λ _, Normal nan) 1700000000000%float
             (Normal (JObject [("type", JString "heartbeat")]))
  = Ignored ∧
  on_message (λ _, nan) (λ _, Normal nan) 1700000000000%float
             (Normal (JObject [("symbol", JString "BTCUSD");
                               ("timestamp", JNumber 1700000000000)]))
  = Ignored ∧
  on_message (λ s, if String.eqb s "0" then 0%float else nan)
             (λ _, Normal nan) 1700000000000%float
             (Normal (JObject [("symbol", JString "BTCUSD");
                               ("mark_price", JString "0");
                               ("spot_price", JNumber 0)]))
  = Ignored.
Proof.
  split; [|split].
  - exact (proj1 (proj2
            (feed_handler_drops_unpriced_messages
               (λ _, nan) (λ _, Normal nan) 1700000000000%float
               (Throw "SyntaxError")
               [("type", JString "heartbeat")])) eq_refl).
  - exact (proj1 (proj2 (proj2
            (feed_handler_drops_unpriced_messages
               (λ _, nan) (λ _, Normal nan) 1700000000000%float
               (Throw "SyntaxError")
               [("symbol", JString "BTCUSD");
                ("timestamp", JNumber 1700000000000)]))) eq_refl eq_refl).
  - exact (proj2 (proj2 (proj2 (proj2
            (feed_handler_drops_unpriced_messages
               (λ s, if String.eqb s "0" then 0%float else nan)
               (λ _, Normal nan) 1700000000000%float (Throw "SyntaxError")
               [("symbol", JString "BTCUSD");
                ("mark_price", JString "0");
                ("spot_price", JNumber 0)])))) 0%float eq_refl eq_refl).
Defined.

(** ** The broadcast *)

Lemma elem_of_frames data cs e :
  e ∈ frames data cs ↔
  ∃ c, c ∈ cs ∧ readyState c = 1 ∧ e = Send (cid c) data.
Proof.
  unfold frames. rewrite elem_of_reverse, list_elem_of_omap. split.
  - intros (c & Hc & He). exists c. unfold is_open in He.
    destruct (Nat.eqb_spec (readyState c) 1); by simplify_eq.
  - intros (c & Hc & Hr & ->). exists c. split; [done|].
    unfold is_open. by rewrite Hr.
Qed.

Lemma tick_event_fields tick f :
  field (tick_event tick f) "type" = str "tick" ∧
  field (tick_event tick f) "symbol" = symbol tick ∧
  field (tick_event tick f) "price" = Some (JNumber (price tick)) ∧
  field (tick_event tick f) "time" = time tick ∧
  field (tick_event tick f) "source" = str (source tick) ∧
  field (tick_event tick f) "mode" = str (mode_name f).
Proof. destruct tick as [[s|] p [t|] src]; by cbv. Qed.




(** C4, as the code has it. A Delta tick whose callback runs while the mode
    is MANUAL changes none of [flag], [manualDirection], [currentPrice],
    [manualTimer], [deltaWs], the set of subscribers, or the producers that
    are alive; it is not discarded, though: it is broadcast, with mode
    MANUAL, to every open subscriber. *)
Theorem late_delta_tick_is_only_broadcast (tick : Tick) (w : World) :
  flag w = Flag0 →
  let w' := handleDeltaTick tick w in
  flag w' = Flag0 ∧
  manualDirection w' = manualDirection w ∧
  currentPrice w' = currentPrice w ∧
  manualTimer w' = manualTimer w ∧
  deltaWs w' = deltaWs w ∧
  clients w' = clients w ∧
  timers (effects w') = timers (effects w) ∧
  sockets (effects w') = sockets (effects w) ∧
  effects w' = frames (tick_event tick Flag0) (clients w) ++ effects w ∧
  (∀ c, c ∈ clients w → readyState c = 1 →
        Send (cid c) (tick_event tick Flag0) ∈ effects w').
Proof.
  intros Hf w'. unfold w'. rewrite handleDeltaTick_spec, Hf. simpl.
  destruct (sends_keep_producers _ (effects w)
              (frames_are_sends (tick_event tick Flag0) (clients w)))
    as (Ht & Hs & _).
  split_and!; try done.
  intros c Hc Hr. apply elem_of_app. left. apply elem_of_frames. by exists c.
Qed.

Lemma late_delta_tick_is_only_broadcast_witness :
  currentPrice
    (handleDeltaTick (btc_tick 50001)
       (run api_cfg [Listening; DeltaTick 0 (btc_tick 50000); PostMode (num 0)]))
  = currentPrice
      (run api_cfg [Listening; DeltaTick 0 (btc_tick 50000); PostMode (num 0)]).
Proof.
  exact (proj1 (proj2 (proj2
           (late_delta_tick_is_only_broadcast (btc_tick 50001)
              (run api_cfg [Listening; DeltaTick 0 (btc_tick 50000);
                            PostMode (num 0)])
              eq_refl)))).
Defined.

(** C4, as stated, fails: after a switch to MANUAL, a late tick of the feed
    opened before is sent to the open subscriber. *)
Lemma late_delta_tick_is_forwarded :
  let w := run api_cfg [Listening; Connection 7; PostMode (num 0)] in
  let w' := step api_cfg w (DeltaTick 0 (btc_tick 50001)) in
  flag w = Flag0 ∧
  deltaWs w = None ∧
  effects w' = Send 7 (tick_event (btc_tick 50001) Flag0) :: effects w.
Proof. by vm_compute. Qed.

(** ** Repeated mode switches *)

Lemma setMode_api_twice cfg w :
  let once := startDeltaMode cfg
                (stopManualLoop (set_manualDirection DirNone (set_flag Flag1 w))) in
  startDeltaMode cfg
    (stopManualLoop (set_manualDirection DirNone (set_flag Flag1 once)))
  = once.
Proof.
  destruct w as [fl dir pr [t|] [s|] cs nh tr]; run_helpers;
    destruct (NODE_ENV_test cfg); reflexivity.
Qed.

Lemma setMode_manual_twice w :
  let once := startManualLoop (set_manualDirection DirNone (set_flag Flag0 w)) in
  let twice := startManualLoop
                 (set_manualDirection DirNone (set_flag Flag0 once)) in
  (flag twice = flag once ∧
   manualDirection twice = manualDirection once ∧
   currentPrice twice = currentPrice once ∧
   deltaWs twice = deltaWs once) ∧
  manualTimer once = Some (nextHandle w) ∧
  manualTimer twice = Some (S (nextHandle w)) ∧
  deltaWs twice = None ∧
  effects twice
    = SetInterval (S (nextHandle w)) :: ClearInterval (nextHandle w)
      :: effects once.
Proof.
  destruct w as [fl dir [p|] [t|] [s|] cs nh tr]; by cbv.
Qed.

(** C5, as the code has it. Two POST /mode requests in a row with the same
    accepted flag leave the same mode, direction (none), price and upstream
    socket as one. For flag 1 the second request changes nothing at all: same
    world, no effect performed. For flag 0 the second request clears the
    timer the first one created and creates another: one timer is alive
    afterwards, no socket, and [manualTimer] holds a new handle. *)
Theorem repeated_setMode
  (cfg : Config) (evs : list Event) (v : jsval) (f : ModeFlag) :
  accepted_flag v = Some f →
  let once := step cfg (run cfg evs) (PostMode v) in
  let twice := step cfg once (PostMode v) in
  flag twice = flag once ∧
  manualDirection twice = manualDirection once ∧
  currentPrice twice = currentPrice once ∧
  deltaWs twice = deltaWs once ∧
  match f with
  | Flag1 => twice = once
  | Flag0 =>
      ∃ h, manualTimer once = Some h ∧
           manualTimer twice = Some (S h) ∧
           effects twice = SetInterval (S h) :: ClearInterval h :: effects once ∧
           timers (effects twice) = {[S h]} ∧
           sockets (effects twice) = ∅
  end.
Proof.
  intros Hv once twice.
  assert (coherent twice) as (Ht & Hs & _).
  { destruct (run_invariant cfg evs) as (Hc & Hm).
    destruct (step_invariant cfg _ (PostMode v) Hc Hm) as (Hc1 & Hm1).
    by destruct (step_invariant cfg _ (PostMode v) Hc1 Hm1). }
  revert Ht Hs. unfold twice, once.
  assert (∀ x, step cfg x (PostMode v) = snd (postMode cfg v x)) as Hstep
    by done.
  rewrite !Hstep. clear Hstep. generalize (run cfg evs). intros w.
  destruct (postMode_accepted cfg v f w Hv) as (_ & ->).
  match goal with |- context [postMode cfg v ?x] =>
    destruct (postMode_accepted cfg v f x Hv) as (_ & ->) end.
  destruct f; cbv beta iota.
  - destruct (setMode_manual_twice w) as (Hsame & Ho & Htw & Hws & He).
    intros Ht Hs. rewrite Htw in Ht. rewrite Hws in Hs.
    split_and!; try apply Hsame. by exists (nextHandle w).
  - intros _ _. by rewrite setMode_api_twice.
Qed.

Lemma repeated_setMode_witness :
  step api_cfg (step api_cfg (run api_cfg [Listening]) (PostMode (num 1)))
    (PostMode (num 1))
  = step api_cfg (run api_cfg [Listening]) (PostMode (num 1)).
Proof.
  exact (proj2 (proj2 (proj2 (proj2
           (repeated_setMode api_cfg [Listening] (num 1) Flag1 eq_refl))))).
Defined.

(** C5, as stated, fails. A second POST /mode with flag 0 is not a no-op on
    the producers: it clears the running timer and starts another, so the
    handle in [manualTimer] differs from the one after the first request;
    and a POST /mode with the current mode resets a direction that was up. *)
Lemma repeated_setMode_manual_restarts_timer :
  let once := step manual_cfg (init manual_cfg) (PostMode (num 0)) in
  let twice := step manual_cfg once (PostMode (num 0)) in
  let steered := run manual_cfg [Listening; PostManualDirection (str "up")] in
  observable once = (Flag0, DirNone, Some 100%float, Some 0, None) ∧
  observable twice = (Flag0, DirNone, Some 100%float, Some 1, None) ∧
  observable twice ≠ observable once ∧
  effects twice = [SetInterval 1; ClearInterval 0; SetInterval 0] ∧
  flag steered = Flag0 ∧
  manualDirection steered = DirUp ∧
  manualDirection (step manual_cfg steered (PostMode (num 0))) = DirNone.
Proof. by vm_compute. Qed.

(** C10. The [mode] field of a broadcast event is the name of the mode at
    the time of the broadcast, API when [flag] is 1 and MANUAL when it is 0,
    whatever the tick and its source. A tick the feed handler emits has
    source delta; handled while [flag] is 0 it is still broadcast, as an
    event with source delta and mode MANUAL; and the frames of a broadcast
    are one per subscriber whose socket is open, all with the same
    payload. *)
Theorem broadcast_mode_is_current_mode
  (StringToNumber : string → float) (ObjectToNumber : json → completion float)
  (now : float) (parsed : completion json) (tick : Tick) (w : World) :
  on_message StringToNumber ObjectToNumber now parsed = Emitted tick →
  let data := tick_event tick (flag w) in
  (∀ t, field (tick_event t Flag1) "mode" = str "API" ∧
        field (tick_event t Flag0) "mode" = str "MANUAL") ∧
  field data "source" = str "delta" ∧
  field data "mode" = str (match flag w with
                           | Flag1 => "API"
                           | Flag0 => "MANUAL"
                           end) ∧
  (flag w = Flag0 →
   field data "source" = str "delta" ∧ field data "mode" = str "MANUAL" ∧
   (∀ c, c ∈ clients w → readyState c = 1 →
         Send (cid c) data ∈ effects (handleDeltaTick tick w))) ∧
  effects (handleDeltaTick tick w) = frames data (clients w) ++ effects w ∧
  (∀ c, c ∈ clients w → readyState c = 1 →
        Send (cid c) data ∈ frames data (clients w)) ∧
  (∀ e, e ∈ frames data (clients w) →
        ∃ c, c ∈ clients w ∧ readyState c = 1 ∧ e = Send (cid c) data).
Proof.
  intros Hemit data.
  destruct (emitted_tick _ _ _ _ _ Hemit) as (_ & _ & _ & _ & _ & _ & _ & Hsrc).
  destruct (tick_event_fields tick (flag w)) as (_ & _ & _ & _ & Hs & Hm).
  fold data in Hs, Hm. rewrite Hsrc in Hs.
  assert (∀ c, c ∈ clients w → readyState c = 1 →
               Send (cid c) data ∈ frames data (clients w)) as Hsent.
  { intros c Hc Hr. apply elem_of_frames. by exists c. }
  split_and!.
  - intros t. by destruct (tick_event_fields t Flag1) as (_ & _ & _ & _ & _ & ->),
      (tick_event_fields t Flag0) as (_ & _ & _ & _ & _ & ->).
  - done.
  - rewrite Hm. by destruct (flag w).
  - intros Hf. split_and!; [done|by rewrite Hm, Hf|].
    intros c Hc Hr. rewrite handleDeltaTick_spec. simpl.
    apply elem_of_app. left. by apply Hsent.
  - by rewrite handleDeltaTick_spec.
  - done.
  - intros e He. by apply elem_of_frames.
Qed.

Lemma broadcast_mode_is_current_mode_witness :
  field (tick_event
           {| symbol := str "BTCUSD"; price := 50001;
              time := num 1700000000000; source := "delta" |}
           (flag (run api_cfg [Listening; Connection 7; PostMode (num 0)])))
        "source"
  = str "delta" ∧
  field (tick_event
           {| symbol := str "BTCUSD"; price := 50001;
              time := num 1700000000000; source := "delta" |}
           (flag (run api_cfg [Listening; Connection 7; PostMode (num 0)])))
        "mode"
  = str "MANUAL" ∧
  Send 7 (tick_event
            {| symbol := str "BTCUSD"; price := 50001;
               time := num 1700000000000; source := "delta" |}
            (flag (run api_cfg [Listening; Connection 7; PostMode (num 0)])))
  ∈ effects (handleDeltaTick
               {| symbol := str "BTCUSD"; price := 50001;
                  time := num 1700000000000; source := "delta" |}
               (run api_cfg [Listening; Connection 7; PostMode (num 0)])).
Proof.
  destruct (proj1 (proj2 (proj2 (proj2
    (broadcast_mode_is_current_mode (λ _, nan) (λ _, Normal nan)
       1700000000000%float
       (Normal (JObject [("symbol", JString "BTCUSD");
                         ("mark_price", JNumber 50001);
                         ("timestamp", JNumber 1700000000000)]))
       {| symbol := str "BTCUSD"; price := 50001;
          time := num 1700000000000; source := "delta" |}
       (run api_cfg [Listening; Connection 7; PostMode (num 0)])
       eq_refl)))) eq_refl) as (Hs & Hm & Hsend).
  split; [exact Hs|]. split; [exact Hm|].
  apply (Hsend {| cid := 7; readyState := 1 |});
    [vm_compute; apply list_elem_of_here | reflexivity].
Defined.

(** ** Further scenarios *)

(** With the price at 120 and the direction down, the next firing gives
    110. *)
Example scenario_down_from_120 :
  currentPrice (run manual_cfg
                  [Listening; PostManualDirection (str "up");
                   TimerFires 0; TimerFires 0;
                   PostManualDirection (str "down")]) = Some 120%float ∧
  currentPrice (run manual_cfg
                  [Listening; PostManualDirection (str "up");
                   TimerFires 0; TimerFires 0;
                   PostManualDirection (str "down"); TimerFires 0])
  = Some 110%float.
Proof. by vm_compute. Qed.

(** A switch from MANUAL to API in mid run resets the direction, and a tick
    pushed by the feed afterwards is stored and broadcast with mode API. *)
Example scenario_switch_to_api :
  let w := run manual_cfg
             [Listening; Connection 7; PostManualDirection (str "up");
              TimerFires 0; PostMode (num 1)] in
  let w' := step manual_cfg w (DeltaTick 1 (btc_tick 50000)) in
  observable w = (Flag1, DirNone, Some 110%float, None, Some 1) ∧
  currentPrice w' = Some 50000%float ∧
  effects w' = Send 7 (tick_event (btc_tick 50000) Flag1) :: effects w ∧
  field (tick_event (btc_tick 50000) Flag1) "mode" = str "API".
Proof. by vm_compute. Qed.

(** The price is the first truthy one of the three fields: a [mark_price]
    of 0 beside a [close] of 5 gives a tick at 5. *)
Example close_stands_in_for_a_zero_mark_price :
  on_message (λ _, nan) (λ _, Normal nan) 1700000000000%float
    (Normal (JObject [("symbol", JString "BTCUSD");
                      ("mark_price", JNumber 0);
                      ("close", JNumber 5)]))
  = Emitted {| symbol := str "BTCUSD"; price := 5;
               time := num 1700000000000; source := "delta" |}.
Proof. reflexivity. Qed.

(** A payload that does not parse, and the payload [null], end in the
    [catch] branch: a log line and no tick. *)
Example unparsable_messages_are_logged :
  on_message (λ _, nan) (λ _, Normal nan) 0%float (Throw "SyntaxError")
  = ErrorLogged "SyntaxError" ∧
  on_message (λ _, nan) (λ _, Normal nan) 0%float (Normal JNull)
  = ErrorLogged "TypeError: Cannot read properties of null".
Proof. split; reflexivity. Qed.

(** * Further properties of src/index.ts *)

(** ** The price, once a number, stays a number *)

Lemma manualTick_keeps_price_defined w :
  currentPrice w ≠ None → currentPrice (manualTick w) ≠ None.
Proof. unfold manualTick. by destruct (manualDirection w). Qed.

Lemma step_keeps_price_defined cfg w ev :
  currentPrice w ≠ None → currentPrice (step cfg w ev) ≠ None.
Proof.
  intros Hp. destruct ev; simpl; try done.
  - unfold onListening. destruct (NODE_ENV_test cfg); [done|].
    destruct (flag w).
    + by destruct (startManualLoop_vars w) as (_ & _ & -> & _).
    + by destruct (startDeltaMode_vars cfg w) as (_ & _ & -> & _).
  - destruct (accepted_flag newFlag) as [f|] eqn:Hv.
    + destruct (postMode_accepted cfg _ _ w Hv) as (_ & ->). destruct f.
      * by destruct (startManualLoop_vars
                       (set_manualDirection DirNone (set_flag Flag0 w)))
          as (_ & _ & -> & _).
      * match goal with |- context [startDeltaMode cfg ?x] =>
          destruct (startDeltaMode_vars cfg x) as (_ & _ & -> & _) end.
        by destruct (stopManualLoop_vars
                       (set_manualDirection DirNone (set_flag Flag1 w)))
          as (_ & _ & -> & _).
    + by rewrite (postMode_rejected cfg _ w Hv).
  - unfold postManualDirection. by destruct (accepted_direction direction).
  - case_bool_decide; [|done]. by apply manualTick_keeps_price_defined.
  - case_bool_decide; [|done]. rewrite handleDeltaTick_spec. simpl.
    by destruct (flag w).
Qed.

(** X1. No event ever sets [currentPrice] back to [null]: if it is a number
    after some events, it is a number after any further events. *)
Theorem price_stays_defined (cfg : Config) (evs more : list Event) :
  currentPrice (run cfg evs) ≠ None →
  currentPrice (run cfg (evs ++ more)) ≠ None.
Proof.
  unfold run. rewrite foldl_app. generalize (foldl (step cfg) (init cfg) evs).
  induction more as [|ev more IH]; intros w Hp; [done|].
  simpl. apply IH. by apply step_keeps_price_defined.
Qed.

Lemma price_stays_defined_witness :
  currentPrice (run manual_cfg ([Listening] ++ [PostMode (num 1); Disconnected 3]))
  ≠ None.
Proof.
  exact (price_stays_defined manual_cfg [Listening]
           [PostMode (num 1); Disconnected 3] ltac:(vm_compute; discriminate)).
Defined.

(** ** After start-up the server holds one producer *)

Lemma startDeltaMode_alive cfg w :
  NODE_ENV_test cfg = false → deltaWs (startDeltaMode cfg w) ≠ None.
Proof.
  intros Ht. destruct w as [fl dir pr [t|] [s|] cs nh tr]; run_helpers;
    rewrite ?Ht; done.
Qed.

Lemma postMode_producer_held cfg v f w :
  NODE_ENV_test cfg = false → accepted_flag v = Some f →
  producer_held (snd (postMode cfg v w)).
Proof.
  intros Ht Hv. destruct (postMode_accepted cfg _ _ w Hv) as (_ & ->).
  unfold producer_held. destruct f.
  - destruct (startManualLoop_vars
                (set_manualDirection DirNone (set_flag Flag0 w)))
      as (-> & _ & _ & _ & -> & -> & _). done.
  - match goal with |- context [startDeltaMode cfg ?x] =>
      pose proof (startDeltaMode_alive cfg x Ht);
      destruct (startDeltaMode_vars cfg x) as (-> & _ & _ & _ & ->) end.
    by destruct (stopManualLoop_vars
                   (set_manualDirection DirNone (set_flag Flag1 w)))
      as (-> & _).
Qed.

Lemma onListening_producer_held cfg w :
  NODE_ENV_test cfg = false → producer_held (onListening cfg w).
Proof.
  intros Ht. unfold onListening, producer_held. rewrite Ht.
  destruct (flag w) eqn:Hf.
  - destruct (startManualLoop_vars w) as (-> & _ & _ & _ & -> & -> & _).
    by rewrite Hf.
  - pose proof (startDeltaMode_alive cfg w Ht).
    destruct (startDeltaMode_vars cfg w) as (-> & _ & _ & _ & ->).
    by rewrite Hf.
Qed.

Lemma step_keeps_producer_held cfg w ev :
  NODE_ENV_test cfg = false →
  producer_held w → producer_held (step cfg w ev).
Proof.
  intros Ht Ha. destruct ev; simpl; try done.
  - by apply onListening_producer_held.
  - destruct (accepted_flag newFlag) as [f|] eqn:Hv.
    + by apply (postMode_producer_held cfg _ f).
    + by rewrite (postMode_rejected cfg _ w Hv).
  - unfold postManualDirection. by destruct (accepted_direction direction).
  - case_bool_decide; [|done]. unfold manualTick.
    by destruct (manualDirection w).
  - case_bool_decide; [|done]. by rewrite handleDeltaTick_spec.
Qed.

(** X2. Outside the test environment, from the moment the server listens
    (or a POST /mode was accepted) the server holds the producer of the
    current mode and not the other one, whatever events follow. In MANUAL
    mode [manualTimer] is an interval that was set and not cleared, and the
    server has closed every socket it opened. In API mode no interval is
    left and [deltaWs] is the one socket the server opened and has not
    closed itself. Whether the far end of that socket is still connected is
    not part of the statement: the close and error callbacks of the feed
    only log, and the server does not reopen while [deltaWs] is held. *)
Theorem current_producer_is_held_after_start
  (cfg : Config) (before after : list Event) (ev : Event) :
  NODE_ENV_test cfg = false →
  (ev = Listening ∨ ∃ v, ev = PostMode v ∧ accepted_flag v ≠ None) →
  let w := run cfg (before ++ ev :: after) in
  producer_held w ∧
  match flag w with
  | Flag0 =>
      (∃ h, manualTimer w = Some h ∧ timers (effects w) = {[h]}) ∧
      sockets (effects w) = ∅
  | Flag1 =>
      (∃ h, deltaWs w = Some h ∧ sockets (effects w) = {[h]}) ∧
      timers (effects w) = ∅
  end.
Proof.
  intros Ht Hev w.
  assert (producer_held w) as Ha.
  { unfold w, run. rewrite foldl_app. simpl.
    generalize (foldl (step cfg) (init cfg) before). intros w0.
    assert (producer_held (step cfg w0 ev)) as H0.
    { destruct Hev as [->|(v & -> & Hv)].
      - by apply onListening_producer_held.
      - destruct (accepted_flag v) as [f|] eqn:E; [|done].
        by apply (postMode_producer_held cfg v f). }
    revert H0. generalize (step cfg w0 ev). clear w0.
    induction after as [|e after IH]; intros w0 H0; [done|].
    simpl. apply IH. by apply step_keeps_producer_held. }
  split; [done|].
  destruct (run_invariant cfg (before ++ ev :: after)) as ((Hti & Hso & _) & _).
  fold w in Hti, Hso. rewrite Hti, Hso. unfold producer_held in Ha.
  destruct (flag w), Ha as (H1 & H2); rewrite H2; split; try done.
  - destruct (manualTimer w) as [h|]; [by exists h|done].
  - destruct (deltaWs w) as [h|]; [by exists h|done].
Qed.

Lemma current_producer_is_held_after_start_witness :
  producer_held
    (run api_cfg ([] ++ Listening :: [PostMode (num 0); DeltaTick 0 (btc_tick 1)]))
  ∧ (∃ h, manualTimer (run api_cfg ([] ++ Listening ::
                         [PostMode (num 0); DeltaTick 0 (btc_tick 1)]))
          = Some h ∧
          timers (effects (run api_cfg ([] ++ Listening ::
                             [PostMode (num 0); DeltaTick 0 (btc_tick 1)])))
          = {[h]})
  ∧ sockets (effects (run api_cfg ([] ++ Listening ::
                        [PostMode (num 0); DeltaTick 0 (btc_tick 1)]))) = ∅.
Proof.
  exact (current_producer_is_held_after_start api_cfg []
           [PostMode (num 0); DeltaTick 0 (btc_tick 1)] Listening
           eq_refl (or_introl eq_refl)).
Defined.

(** ** The test environment never reaches the network *)

Lemma startManualLoop_opened w :
  opened (effects (startManualLoop w)) = opened (effects w).
Proof. destruct w as [fl dir [p|] [t|] [s|] cs nh tr]; by cbv. Qed.

Lemma startDeltaMode_test cfg w :
  NODE_ENV_test cfg = true → deltaWs w = None →
  deltaWs (startDeltaMode cfg w) = None ∧
  opened (effects (startDeltaMode cfg w)) = opened (effects w).
Proof.
  intros Ht Hw. destruct w as [fl dir pr [t|] ws cs nh tr]; simpl in Hw;
    subst; run_helpers; rewrite ?Ht; done.
Qed.

Lemma stopManualLoop_opened w :
  opened (effects (stopManualLoop w)) = opened (effects w).
Proof. destruct w as [fl dir pr [t|] ws cs nh tr]; by cbv. Qed.

Lemma step_offline cfg w ev :
  NODE_ENV_test cfg = true →
  deltaWs w = None → opened (effects w) = ∅ →
  deltaWs (step cfg w ev) = None ∧ opened (effects (step cfg w ev)) = ∅.
Proof.
  intros Ht Hw Ho. destruct ev; simpl; try done.
  - unfold onListening. by rewrite Ht.
  - destruct (accepted_flag newFlag) as [f|] eqn:Hv.
    + destruct (postMode_accepted cfg _ _ w Hv) as (_ & ->). destruct f.
      * rewrite startManualLoop_opened.
        by destruct (startManualLoop_vars
                       (set_manualDirection DirNone (set_flag Flag0 w)))
          as (_ & _ & _ & _ & -> & _).
      * match goal with |- context [startDeltaMode cfg ?x] =>
          destruct (startDeltaMode_test cfg x Ht) as (-> & ->) end.
        -- by destruct (stopManualLoop_vars
                          (set_manualDirection DirNone (set_flag Flag1 w)))
             as (_ & _ & _ & _ & ->).
        -- by rewrite stopManualLoop_opened.
    + by rewrite (postMode_rejected cfg _ w Hv).
  - unfold postManualDirection. by destruct (accepted_direction direction).
  - case_bool_decide; [|done]. unfold manualTick.
    by destruct (manualDirection w).
  - rewrite Ho. by rewrite bool_decide_eq_false_2 by set_solver.
Qed.

Lemma run_offline cfg evs :
  NODE_ENV_test cfg = true →
  deltaWs (run cfg evs) = None ∧ opened (effects (run cfg evs)) = ∅.
Proof.
  intros Ht. unfold run.
  assert (deltaWs (init cfg) = None ∧ opened (effects (init cfg)) = ∅)
    as H0 by done.
  revert H0. generalize (init cfg).
  induction evs as [|ev evs IH]; intros w (Hw & Ho); [done|].
  simpl. apply IH. by apply step_offline.
Qed.

(** X3. When [NODE_ENV] is [test] the server never opens the upstream
    socket, whatever requests it gets: [deltaWs] stays [null], no socket was
    ever opened, and so a Delta tick can never be delivered. *)
Theorem test_environment_stays_offline
  (cfg : Config) (evs : list Event) (h : Handle) (tick : Tick) :
  NODE_ENV_test cfg = true →
  deltaWs (run cfg evs) = None ∧
  opened (effects (run cfg evs)) = ∅ ∧
  sockets (effects (run cfg evs)) = ∅ ∧
  step cfg (run cfg evs) (DeltaTick h tick) = run cfg evs.
Proof.
  intros Ht. destruct (run_offline cfg evs Ht) as (Hw & Ho).
  destruct (run_invariant cfg evs) as ((_ & Hso & _) & _).
  split_and!; try done.
  - by rewrite Hso, Hw.
  - simpl. rewrite Ho. by rewrite bool_decide_eq_false_2 by set_solver.
Qed.

Lemma test_environment_stays_offline_witness :
  deltaWs
    (run {| SYMBOL := "BTCUSD"; INITIAL_MODE := "manual";
            NODE_ENV_test := true |}
         [Listening; PostMode (num 1)]) = None.
Proof.
  exact (proj1 (test_environment_stays_offline
                  {| SYMBOL := "BTCUSD"; INITIAL_MODE := "manual";
                     NODE_ENV_test := true |}
                  [Listening; PostMode (num 1)] 0 (btc_tick 1) eq_refl)).
Defined.

(** ** What the read-only routes report *)

Lemma postMode_flag cfg v f w :
  accepted_flag v = Some f →
  flag (snd (postMode cfg v w)) = f ∧
  manualDirection (snd (postMode cfg v w)) = DirNone.
Proof.
  intros Hv. destruct (postMode_accepted cfg _ _ w Hv) as (_ & ->).
  destruct f.
  - by destruct (startManualLoop_vars
                   (set_manualDirection DirNone (set_flag Flag0 w)))
      as (-> & -> & _).
  - match goal with |- context [startDeltaMode cfg ?x] =>
      destruct (startDeltaMode_vars cfg x) as (-> & -> & _) end.
    by destruct (stopManualLoop_vars
                   (set_manualDirection DirNone (set_flag Flag1 w)))
      as (-> & -> & _).
Qed.

(** X4. After an accepted POST /mode, the three read-only routes report
    what the request set: GET /mode answers with the very body the POST
    answered with, and GET /health and GET /btc-price name the new mode (API
    for flag 1, MANUAL for flag 0) and the direction none. *)
Theorem reads_after_setMode
  (cfg : Config) (v : jsval) (f : ModeFlag) (w : World) :
  accepted_flag v = Some f →
  let w' := snd (postMode cfg v w) in
  body (getMode w') = body (fst (postMode cfg v w)) ∧
  field (body (getMode w')) "flag" = num (flag_number f) ∧
  field (body (getHealth cfg w')) "mode" = str (mode_name f) ∧
  field (body (getBtcPrice w')) "mode" = str (mode_name f) ∧
  field (body (getHealth cfg w')) "manualDirection" = str "none" ∧
  field (body (getBtcPrice w')) "manualDirection" = str "none".
Proof.
  intros Hv w'. split.
  { unfold w', getMode, postMode. rewrite Hv. reflexivity. }
  destruct (postMode_flag cfg v f w Hv) as (Hf & Hd).
  fold w' in Hf, Hd. unfold getMode, getHealth, getBtcPrice. simpl.
  by rewrite Hf, Hd.
Qed.

Lemma reads_after_setMode_witness :
  field (body (getHealth manual_cfg
                 (snd (postMode manual_cfg (num 1) (init manual_cfg)))))
        "mode"
  = str "API".
Proof.
  exact (proj1 (proj2 (proj2
           (reads_after_setMode manual_cfg (num 1) Flag1 (init manual_cfg)
              eq_refl)))).
Defined.

Lemma accepted_direction_name d :
  accepted_direction (str (direction_name d)) = Some d.
Proof. by destruct d. Qed.

Lemma accepted_direction_inv v d :
  accepted_direction v = Some d → v = str (direction_name d).
Proof.
  unfold accepted_direction, strict_eq_string.
  destruct v as [[| | |s| |]|]; try done.
  destruct (String.eqb_spec s "up") as [->|_]; [by intros [= <-]|].
  destruct (String.eqb_spec s "down") as [->|_]; [by intros [= <-]|].
  destruct (String.eqb_spec s "none") as [->|_]; [by intros [= <-]|done].
Qed.

(** X5. The values GET /mode reports can be posted back. The reported
    [manualDirection], sent to POST /manual-direction, is accepted and leaves
    the world exactly as it is; the reported [flag], sent to POST /mode, is
    accepted and keeps the mode. The only values POST /manual-direction
    accepts are the three strings the routes report. *)
Theorem reported_values_post_back (cfg : Config) (w : World) (v : jsval) :
  (let d := field (body (getMode w)) "manualDirection" in
   status (fst (postManualDirection d w)) = 200 ∧
   snd (postManualDirection d w) = w) ∧
  (let f := field (body (getMode w)) "flag" in
   status (fst (postMode cfg f w)) = 200 ∧
   flag (snd (postMode cfg f w)) = flag w) ∧
  (status (fst (postManualDirection v w)) = 200 →
   ∃ d, v = str (direction_name d) ∧
        snd (postManualDirection v w) = set_manualDirection d w ∧
        field (body (getMode (snd (postManualDirection v w)))) "manualDirection"
        = v).
Proof.
  split_and!.
  - change (field (body (getMode w)) "manualDirection")
      with (str (direction_name (manualDirection w))). cbv zeta.
    unfold postManualDirection. rewrite accepted_direction_name.
    by destruct w.
  - change (field (body (getMode w)) "flag")
      with (num (flag_number (flag w))). cbv zeta.
    assert (accepted_flag (num (flag_number (flag w))) = Some (flag w)) as Hv
      by by destruct (flag w).
    destruct (postMode_accepted cfg _ _ w Hv) as (-> & _).
    by destruct (postMode_flag cfg _ _ w Hv) as (-> & _).
  - unfold postManualDirection.
    destruct (accepted_direction v) as [d|] eqn:Hv; [|done].
    intros _. exists d. apply accepted_direction_inv in Hv as ->. done.
Qed.

Lemma reported_values_post_back_witness :
  ∃ d, str "down" = str (direction_name d) ∧
       snd (postManualDirection (str "down") (init api_cfg))
       = set_manualDirection d (init api_cfg) ∧
       field (body (getMode (snd (postManualDirection (str "down")
                                    (init api_cfg)))))
             "manualDirection"
       = str "down".
Proof.
  exact (proj2 (proj2 (reported_values_post_back api_cfg (init api_cfg)
                         (str "down"))) eq_refl).
Defined.

(** ** The direction steers the price in MANUAL mode only *)

(** X6. In API mode, requests to POST /manual-direction and firings of
    timer handles, in any number and order, leave [currentPrice] and the
    mode as they are: the direction is recorded but steps nothing. *)
Theorem direction_is_idle_in_api_mode
  (cfg : Config) (evs steering : list Event) :
  flag (run cfg evs) = Flag1 →
  Forall steers_generator steering →
  currentPrice (run cfg (evs ++ steering)) = currentPrice (run cfg evs) ∧
  flag (run cfg (evs ++ steering)) = Flag1.
Proof.
  intros Hf Hs. unfold run at 1 3. rewrite foldl_app.
  destruct (run_invariant cfg evs) as (Hc & Hm). revert Hf Hc Hm.
  change (foldl (step cfg) (init cfg) evs) with (run cfg evs).
  generalize (run cfg evs).
  induction Hs as [|ev steering Hev _ IH]; intros w Hf Hc Hm; [done|].
  simpl. destruct (step_invariant cfg w ev Hc Hm) as (Hc' & Hm').
  assert (currentPrice (step cfg w ev) = currentPrice w ∧
          flag (step cfg w ev) = Flag1) as (Hp' & Hf').
  { destruct ev; try done; simpl.
    - unfold postManualDirection. by destruct (accepted_direction direction).
    - destruct Hc as (Ht & _), Hm as (Hm & _). rewrite Hf in Hm.
      rewrite Ht, Hm. simpl. by rewrite bool_decide_eq_false_2 by set_solver. }
  destruct (IH _ Hf' Hc' Hm') as (-> & ->). done.
Qed.

Lemma direction_is_idle_in_api_mode_witness :
  currentPrice (run api_cfg
                  ([Listening; DeltaTick 0 (btc_tick 50000)]
                   ++ [PostManualDirection (str "up"); TimerFires 0;
                       TimerFires 1]))
  = currentPrice (run api_cfg [Listening; DeltaTick 0 (btc_tick 50000)]).
Proof.
  exact (proj1 (direction_is_idle_in_api_mode api_cfg
                  [Listening; DeltaTick 0 (btc_tick 50000)]
                  [PostManualDirection (str "up"); TimerFires 0; TimerFires 1]
                  eq_refl
                  ltac:(repeat constructor))).
Defined.

(** ** Subscribers *)


(** ** Starting and stopping twice *)

(** X8. The start guard of [startDeltaMode] and the tests in the two stop
    helpers make them idempotent on every world: a second call in a row
    changes nothing and performs no effect. Stopping after starting leaves
    no handle behind. *)
Theorem start_and_stop_are_idempotent (cfg : Config) (w : World) :
  startDeltaMode cfg (startDeltaMode cfg w) = startDeltaMode cfg w ∧
  stopDeltaMode (stopDeltaMode w) = stopDeltaMode w ∧
  stopManualLoop (stopManualLoop w) = stopManualLoop w ∧
  deltaWs (stopDeltaMode (startDeltaMode cfg w)) = None ∧
  manualTimer (stopManualLoop (startManualLoop w)) = None.
Proof.
  split_and!.
  - destruct w as [fl dir pr [t|] [s|] cs nh tr]; run_helpers;
      destruct (NODE_ENV_test cfg); reflexivity.
  - by destruct w as [fl dir pr mt [s|] cs nh tr].
  - by destruct w as [fl dir pr [t|] ws cs nh tr].
  - apply stopDeltaMode_deltaWs.
  - apply stopManualLoop_manualTimer.
Qed.

(** * Further properties of the feed *)

Section FeedToRelay.
Variable StringToNumber : string → float.
Variable ObjectToNumber : json → completion float.

#[local] Abbreviation on_message := (on_message StringToNumber ObjectToNumber).
#[local] Abbreviation onFeedMessage :=
  (onFeedMessage StringToNumber ObjectToNumber).

(** X9. A message of the feed either changes nothing at all, or is
    broadcast as one event with source delta; the mode, the direction, the
    handles and the subscribers are never touched; and the price it leaves
    is the old one or, in API mode only, a truthy number: the feed never
    stores 0, -0 or NaN. *)
Theorem feed_message_effect
  (now : float) (parsed : completion json) (w : World) :
  let w' := onFeedMessage now parsed w in
  (w' = w ∨
   ∃ tick, on_message now parsed = Emitted tick ∧
           source tick = "delta" ∧
           effects w' = frames (tick_event tick (flag w)) (clients w)
                        ++ effects w) ∧
  (flag w' = flag w ∧ manualDirection w' = manualDirection w ∧
   manualTimer w' = manualTimer w ∧ deltaWs w' = deltaWs w ∧
   clients w' = clients w) ∧
  (currentPrice w' = currentPrice w ∨
   flag w = Flag1 ∧
   ∃ p, currentPrice w' = Some p ∧ truthy_number p = true).
Proof.
  intros w'. unfold w', Index.onFeedMessage.
  destruct (on_message now parsed) as [tick| |err] eqn:Hout;
    [|by split_and!; auto..].
  destruct (emitted_tick _ _ _ _ _ Hout) as (_ & _ & _ & _ & _ & Hp & _ & Hs).
  rewrite handleDeltaTick_spec. simpl. split_and!; try done.
  - right. by exists tick.
  - destruct (flag w); [by left|]. right. split; [done|]. by exists (price tick).
Qed.

(** X10. The time of an emitted tick is the message's [timestamp] when that
    is truthy and the arrival time otherwise (a timestamp of 0 or an empty
    one counts as missing), so with a clock that is not 0 every tick carries
    a truthy time. *)
Theorem tick_time_falls_back_to_arrival
  (now : float) (props : list (string * json)) (tick : Tick) :
  on_message now (Normal (JObject props)) = Emitted tick →
  time tick = (if truthy (prop_lookup props "timestamp")
               then prop_lookup props "timestamp"
               else Some (JNumber now)) ∧
  (truthy_number now = true → truthy (time tick) = true).
Proof.
  rewrite on_message_object.
  destruct (negb (truthy (prop_lookup props "symbol"))); [done|].
  destruct (_ && _); [done|].
  destruct (price_of _ _ _ _ _) as [p|err]; [|done].
  destruct (negb (truthy_number p)); [done|].
  intros [= <-]. simpl. split; [done|]. intros Hnow.
  by destruct (truthy (prop_lookup props "timestamp")) eqn:Hts.
Qed.

(** X11. The handler does not look at which symbol a message is about: two
    messages that agree on [mark_price], [close], [spot_price] and
    [timestamp] and both carry some truthy [symbol] are treated alike, tick
    for tick, and leave the same price in the relay. *)
Theorem symbol_is_not_filtered
  (now : float) (props props' : list (string * json)) (w : World) :
  truthy (prop_lookup props "symbol") = true →
  truthy (prop_lookup props' "symbol") = true →
  (∀ key, key ∈ ["mark_price"; "close"; "spot_price"; "timestamp"] →
          prop_lookup props' key = prop_lookup props key) →
  match on_message now (Normal (JObject props)),
        on_message now (Normal (JObject props')) with
  | Emitted t, Emitted t' =>
      price t' = price t ∧ time t' = time t ∧ source t' = source t ∧
      symbol t = prop_lookup props "symbol" ∧
      symbol t' = prop_lookup props' "symbol"
  | Ignored, Ignored => True
  | ErrorLogged e, ErrorLogged e' => e' = e
  | _, _ => False
  end ∧
  currentPrice (onFeedMessage now (Normal (JObject props')) w)
  = currentPrice (onFeedMessage now (Normal (JObject props)) w).
Proof.
  intros Hs Hs' Hsame.
  assert (prop_lookup props' "mark_price" = prop_lookup props "mark_price")
    as Hm by (apply Hsame; set_solver).
  assert (prop_lookup props' "close" = prop_lookup props "close")
    as Hc by (apply Hsame; set_solver).
  assert (prop_lookup props' "spot_price" = prop_lookup props "spot_price")
    as Hsp by (apply Hsame; set_solver).
  assert (prop_lookup props' "timestamp" = prop_lookup props "timestamp")
    as Hts by (apply Hsame; set_solver).
  unfold Index.onFeedMessage. rewrite !on_message_object.
  rewrite Hs, Hs', Hm, Hc, Hsp, Hts. simpl.
  destruct (_ && _); [done|].
  destruct (price_of _ _ _ _ _) as [p|err]; [|done].
  destruct (negb (truthy_number p)); [done|].
  split; [done|]. rewrite !handleDeltaTick_spec. done.
Qed.
End FeedToRelay.

Lemma tick_time_falls_back_to_arrival_witness :
  time {| symbol := str "BTCUSD"; price := 5;
          time := num 1700000000000; source := "delta" |}
  = Some (JNumber 1700000000000).
Proof.
  exact (proj1 (tick_time_falls_back_to_arrival (λ _, nan) (λ _, Normal nan)
                  1700000000000%float
                  [("symbol", JString "BTCUSD"); ("mark_price", JNumber 5);
                   ("timestamp", JNumber 0)]
                  {| symbol := str "BTCUSD"; price := 5;
                     time := num 1700000000000; source := "delta" |}
                  eq_refl)).
Defined.

Lemma symbol_is_not_filtered_witness :
  currentPrice
    (onFeedMessage (λ _, nan) (λ _, Normal nan) 1700000000000%float
       (Normal (JObject [("symbol", JString "ETHUSD");
                         ("mark_price", JNumber 3000)]))
       (run api_cfg [Listening]))
  = currentPrice
      (onFeedMessage (λ _, nan) (λ _, Normal nan) 1700000000000%float
         (Normal (JObject [("mark_price", JNumber 3000);
                           ("symbol", JString "BTCUSD")]))
         (run api_cfg [Listening])).
Proof.
  refine (proj2 (symbol_is_not_filtered (λ _, nan) (λ _, Normal nan)
                   1700000000000%float
                   [("mark_price", JNumber 3000); ("symbol", JString "BTCUSD")]
                   [("symbol", JString "ETHUSD"); ("mark_price", JNumber 3000)]
                   (run api_cfg [Listening]) eq_refl eq_refl _)).
  intros key Hkey.
  repeat (apply elem_of_cons in Hkey as [->|Hkey]; [reflexivity|]).
  by apply elem_of_nil in Hkey.
Defined.

(** * Properties of src/deltaRest.ts *)

Section RestPrice.
Variable StringToNumber : string → float.
Variable ObjectToNumber : json → completion float.
Variable toFixed2 : float → float.
Variable JSON_parse : string → completion json.

#[local] Abbreviation formatToTwoDecimals :=
  (DeltaRest.formatToTwoDecimals StringToNumber ObjectToNumber toFixed2).
#[local] Abbreviation price_of_raw_data :=
  (DeltaRest.price_of_raw_data StringToNumber ObjectToNumber toFixed2 JSON_parse).
#[local] Abbreviation fetchDeltaRestPrice :=
  (DeltaRest.fetchDeltaRestPrice StringToNumber ObjectToNumber toFixed2
     JSON_parse).

Lemma bind_Normal {A B} (f : A → completion B) (a : A) :
  Normal a ≫= f = f a.
Proof. reflexivity. Qed.

Lemma ticker_of_plain props :
  truthy (prop_lookup props "result") = false →
  DeltaRest.ticker_of (JObject props) = Normal (Some (JObject props)).
Proof. intros H. unfold DeltaRest.ticker_of. simpl. by rewrite H. Qed.

(** The chain of [??] on an object is a search for the first field that is
    neither missing nor [null]. *)
Lemma raw_price_object props :
  DeltaRest.raw_price (Some (JObject props)) =
  Normal (default (Some JNull)
            (find (λ v, negb (DeltaRest.nullish v))
                  (map (prop_lookup props) DeltaRest.price_keys))).
Proof.
  unfold DeltaRest.raw_price, DeltaRest.price_keys, DeltaRest.coalesce. simpl.
  repeat (match goal with
          | |- context [DeltaRest.nullish (prop_lookup props ?k)] =>
              destruct (DeltaRest.nullish (prop_lookup props k)) eqn:?
          end; simpl; try done).
Qed.

(** X12. For a response that is a plain object (no truthy [result]), the
    price comes from the first of [mark_price], [last_price], [close],
    [spot_price], [ask], [bid] that is present and not [null], and from that
    field alone; with none of them the function returns [null]. *)
Theorem rest_price_is_first_present_field
  (rawData : string) (props : list (string * json)) :
  JSON_parse rawData = Normal (JObject props) →
  truthy (prop_lookup props "result") = false →
  price_of_raw_data rawData =
  match find (λ v, negb (DeltaRest.nullish v))
             (map (prop_lookup props) DeltaRest.price_keys) with
  | Some v => formatToTwoDecimals v
  | None => Normal None
  end.
Proof.
  intros Hparse Hres. unfold DeltaRest.price_of_raw_data.
  rewrite Hparse, bind_Normal, (ticker_of_plain _ Hres), bind_Normal,
    raw_price_object, bind_Normal.
  destruct (find (λ v, negb (DeltaRest.nullish v))
              (map (prop_lookup props) DeltaRest.price_keys))
    as [v|] eqn:Hfind; simpl; [|done].
  apply find_some in Hfind as (_ & Hv).
  by destruct (DeltaRest.nullish v).
Qed.

(** X13. A present [mark_price] decides alone, whatever the other fields
    hold: a [mark_price] of 0 is a price (the feed handler would skip it),
    and one that is not a number makes the function return [null] without
    trying the fields after it. *)
Theorem rest_mark_price_decides_alone
  (rawData : string) (props : list (string * json)) (v : json) :
  JSON_parse rawData = Normal (JObject props) →
  truthy (prop_lookup props "result") = false →
  prop_lookup props "mark_price" = Some v → v ≠ JNull →
  price_of_raw_data rawData = formatToTwoDecimals (Some v) ∧
  (v = JNumber 0 → price_of_raw_data rawData = Normal (Some (toFixed2 0))) ∧
  (∀ s, v = JString s → is_nan (StringToNumber s) = true →
        price_of_raw_data rawData = Normal None).
Proof.
  intros Hparse Hres Hm Hv.
  assert (price_of_raw_data rawData = formatToTwoDecimals (Some v)) as ->.
  { rewrite (rest_price_is_first_present_field _ _ Hparse Hres).
    unfold DeltaRest.price_keys. simpl. rewrite Hm. by destruct v. }
  split_and!; [done|..].
  - by intros ->.
  - intros s -> Hs. unfold DeltaRest.formatToTwoDecimals. simpl. by rewrite Hs.
Qed.

(** X14. A ticker wrapped as [{result: ticker}] or as the first element of
    [{result: [ticker, ...]}] gives the same price as the bare ticker; an
    empty [result] array ends in the [catch]. *)
Theorem rest_result_is_unwrapped
  (props outer : list (string * json)) (rest : list json)
  (bare wrapped : string) :
  JSON_parse wrapped = Normal (JObject outer) →
  (truthy (prop_lookup props "result") = false →
   JSON_parse bare = Normal (JObject props) →
   prop_lookup outer "result" = Some (JObject props) →
   price_of_raw_data wrapped = price_of_raw_data bare) ∧
  (truthy (prop_lookup props "result") = false →
   JSON_parse bare = Normal (JObject props) →
   prop_lookup outer "result" = Some (JArray (JObject props :: rest)) →
   price_of_raw_data wrapped = price_of_raw_data bare) ∧
  (prop_lookup outer "result" = Some (JArray []) →
   ∃ err, price_of_raw_data wrapped = Throw err).
Proof.
  intros Hw. unfold DeltaRest.price_of_raw_data. rewrite Hw, !bind_Normal.
  split_and!.
  - intros Hres Hb Hr. rewrite Hb, bind_Normal, (ticker_of_plain _ Hres).
    unfold DeltaRest.ticker_of. simpl. by rewrite Hr.
  - intros Hres Hb Hr. rewrite Hb, bind_Normal, (ticker_of_plain _ Hres).
    unfold DeltaRest.ticker_of. simpl. by rewrite Hr.
  - intros Hr. unfold DeltaRest.ticker_of. simpl. rewrite Hr. simpl.
    by eexists.
Qed.

Lemma formatToTwoDecimals_some v p :
  formatToTwoDecimals v = Normal (Some p) →
  ∃ n, is_nan n = false ∧ p = toFixed2 n.
Proof.
  unfold DeltaRest.formatToTwoDecimals.
  destruct (Number _ _ v) as [n|err]; simpl; [|done].
  destruct (is_nan n) eqn:Hn; simpl; [done|]. intros [= <-]. by exists n.
Qed.

Lemma price_of_raw_data_some rawData p :
  price_of_raw_data rawData = Normal (Some p) →
  ∃ n, is_nan n = false ∧ p = toFixed2 n.
Proof.
  unfold DeltaRest.price_of_raw_data.
  destruct (JSON_parse rawData) as [body|]; simpl; [|done].
  destruct (DeltaRest.ticker_of body) as [ticker|]; simpl; [|done].
  destruct (DeltaRest.raw_price ticker) as [rawPrice|]; simpl; [|done].
  destruct (DeltaRest.nullish rawPrice); simpl; [done|].
  apply formatToTwoDecimals_some.
Qed.

Lemma with_client_some (client : DeltaRest.ClientPromise)
  (response : completion DeltaRest.ResponseData) (q : float) :
  DeltaRest.returned
    (DeltaRest.with_client StringToNumber ObjectToNumber toFixed2 JSON_parse
       client response) = Some q →
  (∃ n, is_nan n = false ∧ q = toFixed2 n) ∧
  client = DeltaRest.Resolved ∧
  DeltaRest.requested
    (DeltaRest.with_client StringToNumber ObjectToNumber toFixed2 JSON_parse
       client response) = true.
Proof.
  unfold DeltaRest.with_client. destruct client as [|err]; simpl; [|done].
  unfold DeltaRest.price_of_response.
  destruct response as [data|]; simpl; [|done].
  destruct (String.eqb _ _); simpl; [done|].
  destruct (price_of_raw_data _) as [r|] eqn:Hr; [|done].
  intros ->. by apply price_of_raw_data_some in Hr.
Qed.

(** X15. Whatever the credentials, the content of [deltaClientPromise]
    (unset, resolved or rejected), what the constructor does and how the
    request ends: when [toFixed] keeps numbers numbers, the function never
    returns NaN, and it returns a number only when the client promise is a
    resolved one and [getTicker] was called. *)
Theorem rest_price_is_never_nan
  (env : DeltaRest.Env) (cached : option DeltaRest.ClientPromise)
  (construct : DeltaRest.Construction)
  (response : completion DeltaRest.ResponseData) (p : float) :
  (∀ n, is_nan n = false → is_nan (toFixed2 n) = false) →
  DeltaRest.returned (fetchDeltaRestPrice env cached construct response)
  = Some p →
  is_nan p = false ∧
  DeltaRest.requested (fetchDeltaRestPrice env cached construct response)
  = true ∧
  DeltaRest.client_promise
    (fetchDeltaRestPrice env cached construct response)
  = Some DeltaRest.Resolved.
Proof.
  intros Hfix. unfold DeltaRest.fetchDeltaRestPrice.
  assert (∀ client,
            DeltaRest.returned
              (DeltaRest.with_client StringToNumber ObjectToNumber toFixed2
                 JSON_parse client response) = Some p →
            is_nan p = false ∧
            DeltaRest.requested
              (DeltaRest.with_client StringToNumber ObjectToNumber toFixed2
                 JSON_parse client response) = true ∧
            DeltaRest.client_promise
              (DeltaRest.with_client StringToNumber ObjectToNumber toFixed2
                 JSON_parse client response) = Some DeltaRest.Resolved)
    as Hclient.
  { intros client H.
    destruct (with_client_some _ _ _ H) as ((n & Hn & ->) & -> & Hreq).
    split_and!; auto. }
  destruct cached as [client|]; [by apply Hclient|].
  cbv zeta. destruct (_ || _); simpl; [done|].
  destruct construct as [err|client]; simpl; [done|by apply Hclient].
Qed.

(** X16. The client promise is created at most once. Without a stored
    promise and without both credentials (missing or empty) nothing is
    constructed, stored or requested. A stored promise is never replaced,
    and with one the credentials and the constructor are not consulted. The
    promise is stored before it is awaited: if the call that created it
    left a resolved one, the next call makes the request; if it left a
    rejected one, the next call, and by the same rule every later one,
    returns [null] without calling [getTicker], whatever the credentials
    are by then. *)
Theorem rest_client_is_created_once
  (env env' : DeltaRest.Env) (construct construct' : DeltaRest.Construction)
  (response response' : completion DeltaRest.ResponseData)
  (client : DeltaRest.ClientPromise) :
  (default EmptyString (DeltaRest.DELTA_API_KEY env) = EmptyString ∨
   default EmptyString (DeltaRest.DELTA_API_SECRET env) = EmptyString →
   fetchDeltaRestPrice env None construct response =
   {| DeltaRest.returned := None; DeltaRest.client_promise := None;
      DeltaRest.requested := false |}) ∧
  (fetchDeltaRestPrice env' (Some client) construct' response
   = fetchDeltaRestPrice env (Some client) construct response ∧
   DeltaRest.client_promise
     (fetchDeltaRestPrice env (Some client) construct response)
   = Some client) ∧
  (DeltaRest.client_promise (fetchDeltaRestPrice env None construct response)
   = Some client →
   let next :=
     fetchDeltaRestPrice env'
       (DeltaRest.client_promise
          (fetchDeltaRestPrice env None construct response))
       construct' response' in
   DeltaRest.client_promise next = Some client ∧
   match client with
   | DeltaRest.Resolved => DeltaRest.requested next = true
   | DeltaRest.Rejected _ =>
       DeltaRest.requested next = false ∧ DeltaRest.returned next = None
   end).
Proof.
  split_and!.
  - unfold DeltaRest.fetchDeltaRestPrice.
    intros [-> | ->]; simpl; [done|]. by rewrite orb_true_r.
  - done.
  - by destruct client.
  - intros ->. by destruct client.
Qed.
End RestPrice.

Lemma rest_price_is_first_present_field_witness :
  DeltaRest.price_of_raw_data (λ _, nan) (λ _, Normal nan) (λ n, n)
    DeltaRest.sample_parse "late"
  = Normal (Some 7%float).
Proof.
  exact (rest_price_is_first_present_field (λ _, nan) (λ _, Normal nan)
           (λ n, n) DeltaRest.sample_parse "late"
           [("mark_price", JNull); ("close", JNumber 7)] eq_refl eq_refl).
Defined.

Lemma rest_mark_price_decides_alone_witness :
  DeltaRest.price_of_raw_data (λ _, nan) (λ _, Normal nan) (λ n, n)
    DeltaRest.sample_parse "bare"
  = Normal (Some 0%float) ∧
  DeltaRest.price_of_raw_data (λ _, nan) (λ _, Normal nan) (λ n, n)
    DeltaRest.sample_parse "text"
  = Normal None.
Proof.
  split.
  - exact (proj1 (proj2
      (rest_mark_price_decides_alone (λ _, nan) (λ _, Normal nan) (λ n, n)
         DeltaRest.sample_parse "bare"
         [("mark_price", JNumber 0); ("last_price", JNumber 7)] (JNumber 0)
         eq_refl eq_refl eq_refl ltac:(discriminate))) eq_refl).
  - exact (proj2 (proj2
      (rest_mark_price_decides_alone (λ _, nan) (λ _, Normal nan) (λ n, n)
         DeltaRest.sample_parse "text"
         [("mark_price", JString "n/a"); ("last_price", JNumber 7)]
         (JString "n/a")
         eq_refl eq_refl eq_refl ltac:(discriminate))) "n/a" eq_refl eq_refl).
Defined.

Lemma rest_result_is_unwrapped_witness :
  DeltaRest.price_of_raw_data (λ _, nan) (λ _, Normal nan) (λ n, n)
    DeltaRest.sample_parse "wrapped"
  = DeltaRest.price_of_raw_data (λ _, nan) (λ _, Normal nan) (λ n, n)
      DeltaRest.sample_parse "bare".
Proof.
  exact (proj1
    (rest_result_is_unwrapped (λ _, nan) (λ _, Normal nan) (λ n, n)
       DeltaRest.sample_parse
       [("mark_price", JNumber 0); ("last_price", JNumber 7)]
       [("result",
         JObject [("mark_price", JNumber 0); ("last_price", JNumber 7)])]
       [] "bare" "wrapped" eq_refl) eq_refl eq_refl eq_refl).
Defined.

Lemma rest_price_is_never_nan_witness :
  is_nan 7%float = false ∧
  DeltaRest.requested
    (DeltaRest.fetchDeltaRestPrice (λ _, nan) (λ _, Normal nan) (λ n, n)
       DeltaRest.sample_parse
       {| DeltaRest.DELTA_API_KEY := Some "key";
          DeltaRest.DELTA_API_SECRET := Some "secret" |}
       None (DeltaRest.ConstructorReturns DeltaRest.Resolved)
       (Normal (DeltaRest.DataString "late")))
  = true ∧
  DeltaRest.client_promise
    (DeltaRest.fetchDeltaRestPrice (λ _, nan) (λ _, Normal nan) (λ n, n)
       DeltaRest.sample_parse
       {| DeltaRest.DELTA_API_KEY := Some "key";
          DeltaRest.DELTA_API_SECRET := Some "secret" |}
       None (DeltaRest.ConstructorReturns DeltaRest.Resolved)
       (Normal (DeltaRest.DataString "late")))
  = Some DeltaRest.Resolved.
Proof.
  exact (rest_price_is_never_nan (λ _, nan) (λ _, Normal nan) (λ n, n)
           DeltaRest.sample_parse
           {| DeltaRest.DELTA_API_KEY := Some "key";
              DeltaRest.DELTA_API_SECRET := Some "secret" |}
           None (DeltaRest.ConstructorReturns DeltaRest.Resolved)
           (Normal (DeltaRest.DataString "late"))
           7%float (λ n H, H) eq_refl).
Defined.

(** Credentials are there, the constructor gives a promise that rejects: it
    is stored, and the next call makes no request although its credentials
    and its constructor would be fine; and a call without the secret. *)
Lemma rest_client_is_created_once_witness :
  (DeltaRest.requested
     (DeltaRest.fetchDeltaRestPrice (λ _, nan) (λ _, Normal nan) (λ n, n)
        DeltaRest.sample_parse
        {| DeltaRest.DELTA_API_KEY := Some "key";
           DeltaRest.DELTA_API_SECRET := Some "secret" |}
        (DeltaRest.client_promise
           (DeltaRest.fetchDeltaRestPrice (λ _, nan) (λ _, Normal nan)
              (λ n, n) DeltaRest.sample_parse
              {| DeltaRest.DELTA_API_KEY := Some "key";
                 DeltaRest.DELTA_API_SECRET := Some "secret" |}
              None
              (DeltaRest.ConstructorReturns (DeltaRest.Rejected "ECONNREFUSED"))
              (Normal (DeltaRest.DataString "late"))))
        (DeltaRest.ConstructorReturns DeltaRest.Resolved)
        (Normal (DeltaRest.DataString "late")))
   = false) ∧
  DeltaRest.fetchDeltaRestPrice (λ _, nan) (λ _, Normal nan) (λ n, n)
    DeltaRest.sample_parse
    {| DeltaRest.DELTA_API_KEY := Some "key";
       DeltaRest.DELTA_API_SECRET := None |}
    None (DeltaRest.ConstructorReturns DeltaRest.Resolved)
    (Normal (DeltaRest.DataString "late"))
  = {| DeltaRest.returned := None; DeltaRest.client_promise := None;
       DeltaRest.requested := false |}.
Proof.
  split.
  - exact (proj1 (proj2 (proj2 (proj2
      (rest_client_is_created_once (λ _, nan) (λ _, Normal nan) (λ n, n)
         DeltaRest.sample_parse
         {| DeltaRest.DELTA_API_KEY := Some "key";
            DeltaRest.DELTA_API_SECRET := Some "secret" |}
         {| DeltaRest.DELTA_API_KEY := Some "key";
            DeltaRest.DELTA_API_SECRET := Some "secret" |}
         (DeltaRest.ConstructorReturns (DeltaRest.Rejected "ECONNREFUSED"))
         (DeltaRest.ConstructorReturns DeltaRest.Resolved)
         (Normal (DeltaRest.DataString "late"))
         (Normal (DeltaRest.DataString "late"))
         (DeltaRest.Rejected "ECONNREFUSED"))) eq_refl))).
  - exact (proj1
      (rest_client_is_created_once (λ _, nan) (λ _, Normal nan) (λ n, n)
         DeltaRest.sample_parse
         {| DeltaRest.DELTA_API_KEY := Some "key";
            DeltaRest.DELTA_API_SECRET := None |}
         {| DeltaRest.DELTA_API_KEY := None;
            DeltaRest.DELTA_API_SECRET := None |}
         (DeltaRest.ConstructorReturns DeltaRest.Resolved)
         (DeltaRest.ConstructorReturns DeltaRest.Resolved)
         (Normal (DeltaRest.DataString "late"))
         (Normal (DeltaRest.DataString "late"))
         DeltaRest.Resolved)
      (or_intror eq_refl)).
Defined.

(** * index.js and index.ts *)

Lemma startDeltaMode_js cfg w :
  NODE_ENV_test cfg = false →
  IndexJs.startDeltaMode cfg w = startDeltaMode cfg w.
Proof.
  intros Ht. unfold IndexJs.startDeltaMode, startDeltaMode. by rewrite Ht.
Qed.

Lemma step_js cfg w ev :
  NODE_ENV_test cfg = false → IndexJs.step cfg w ev = step cfg w ev.
Proof.
  intros Ht. destruct ev; try reflexivity.
  - unfold IndexJs.step, IndexJs.onListening. simpl. unfold onListening.
    rewrite Ht. destruct (flag w); [done|]. by apply startDeltaMode_js.
  - unfold IndexJs.step, IndexJs.postMode. simpl. unfold postMode.
    destruct (accepted_flag newFlag) as [[|]|]; try done.
    cbv beta iota zeta delta [snd]. cbn [flag set_flag].
    by rewrite startDeltaMode_js.
Qed.

(** X17. Outside the test environment index.ts and index.js do the same
    thing on every sequence of events: same variables, same subscribers,
    same history of effects. In the test environment they differ: after a
    POST /mode with flag 1, index.js has opened the upstream socket and
    index.ts has not. *)
Theorem typescript_port_agrees_with_original
  (cfg : Config) (evs : list Event) :
  (NODE_ENV_test cfg = false → IndexJs.run cfg evs = run cfg evs) ∧
  (NODE_ENV_test cfg = true →
   deltaWs (IndexJs.run cfg (evs ++ [PostMode (num 1)])) ≠ None ∧
   deltaWs (run cfg (evs ++ [PostMode (num 1)])) = None).
Proof.
  split.
  - intros Ht. unfold IndexJs.run, run. generalize (init cfg).
    induction evs as [|ev evs IH]; intros w; [done|].
    simpl. rewrite step_js by done. apply IH.
  - intros Ht. split.
    + unfold IndexJs.run. rewrite foldl_app.
      generalize (foldl (IndexJs.step cfg) (init cfg) evs). intros w.
      change (foldl (IndexJs.step cfg) w [PostMode (num 1)])
        with (snd (IndexJs.postMode cfg (num 1) w)).
      unfold IndexJs.postMode. rewrite accepted_flag_1.
      destruct w as [fl dir pr [t|] [s|] cs nh tr]; by cbv.
    + by destruct (run_offline cfg (evs ++ [PostMode (num 1)]) Ht).
Qed.

Lemma typescript_port_agrees_with_original_witness :
  IndexJs.run api_cfg [Listening; PostMode (num 0); TimerFires 1]
  = run api_cfg [Listening; PostMode (num 0); TimerFires 1].
Proof.
  exact (proj1 (typescript_port_agrees_with_original api_cfg
                  [Listening; PostMode (num 0); TimerFires 1]) eq_refl).
Defined.

(** The test of src/index.test.ts: started with FEED_MODE=manual under
    NODE_ENV=test, /health says MANUAL; after POST /mode with flag 1 it says
    API; no producer was started on the way. *)
Example health_test_passes :
  let cfg := {| SYMBOL := "BTCUSD"; INITIAL_MODE := "manual";
                NODE_ENV_test := true |} in
  let w := run cfg [Listening] in
  let w' := step cfg w (PostMode (num 1)) in
  field (body (getHealth cfg w)) "status" = str "ok" ∧
  field (body (getHealth cfg w)) "mode" = str "MANUAL" ∧
  field (body (getHealth cfg w')) "status" = str "ok" ∧
  field (body (getHealth cfg w')) "mode" = str "API" ∧
  effects w' = [].
Proof. by vm_compute. Qed.
